(** * NSOT nornir-automation: drift detection, orchestration, reports, vendor map

    A shallow embedding of the validation pipeline of
    [unified-docker/nornir-automation]:

    - [tasks/config_validation.py]  ([ConfigValidator]),
    - [tasks/report_generator.py]   ([ReportGenerator]),
    - [tasks/inventory_manager.py]  ([InventoryManager._map_manufacturer_to_driver]),

    followed by the properties of the specification stated over it.

    Conventions.  A Python [str] is a [string] whose characters are read as
    the code points 0..255.  A Python [set] of strings is a [gset string];
    a [dict] that is iterated is an association list in insertion order, a
    [dict] that is only looked up is a [gmap].  Code that may raise returns a
    [pyresult]; [try/except Exception] is a match on it. *)

From Stdlib Require Import Ascii QArith.
From stdpp Require Import base option list numbers gmap sets strings pretty
  sorting.

Open Scope string_scope.
Open Scope list_scope.

(** ** Python primitives *)

Module Py.

(** The outcome of running a block: a value, or an exception carrying
    [str(e)]. *)
Inductive pyresult (A : Type) : Type :=
| Ok (a : A)
| Raise (e : string).
Global Arguments Ok {A} a.
Global Arguments Raise {A} e.

Global Instance pyresult_ret : MRet pyresult := @Ok.
Global Instance pyresult_bind : MBind pyresult := λ A B f m,
  match m with
  | Ok a => f a
  | Raise e => Raise e
  end.
Global Instance pyresult_fmap : FMap pyresult := λ A B f m,
  match m with
  | Ok a => Ok (f a)
  | Raise e => Raise e
  end.

(** A value found under a configuration key: NAPALM getters hand back
    text, or nothing at all. *)
Inductive pyval : Type :=
| PyNone
| PyStr (s : string).

Global Instance pyval_eq_dec : EqDecision pyval.
Proof. solve_decision. Defined.

(** [str.isspace] on the code points 0..255: TAB..CR, FS..US, SPACE, NEL
    and NBSP. *)
Definition is_space (c : ascii) : bool :=
  let n := Ascii.N_of_ascii c in
  ((9 <=? n) && (n <=? 13) || (28 <=? n) && (n <=? 32)
   || (n =? 133) || (n =? 160))%N.

(** [s.lstrip()] *)
Fixpoint lstrip (s : string) : string :=
  match s with
  | EmptyString => EmptyString
  | String c s' => if is_space c then lstrip s' else s
  end.

(** [s.rstrip()] *)
Fixpoint rstrip (s : string) : string :=
  match s with
  | EmptyString => EmptyString
  | String c s' =>
      match rstrip s' with
      | EmptyString => if is_space c then EmptyString else String c EmptyString
      | r => String c r
      end
  end.

(** [s.strip()]: whitespace is removed at the two ends of the whole text,
    nowhere else. *)
Definition strip (s : string) : string := rstrip (lstrip s).

Definition newline : ascii := Ascii.ascii_of_N 10.

(** [s.split('\n')]: never the empty list, [''.split('\n') == ['']]. *)
Fixpoint split_lines (s : string) : list string :=
  match s with
  | EmptyString => [EmptyString]
  | String c s' =>
      if decide (c = newline) then EmptyString :: split_lines s'
      else match split_lines s' with
           | l :: ls => String c l :: ls
           | [] => [String c EmptyString]
           end
  end.

(** [str.lower] on one code point of 0..255: A-Z and the capital letters
    of Latin-1 (0xC0..0xDE but the multiplication sign). *)
Definition lower_char (c : ascii) : ascii :=
  let n := Ascii.N_of_ascii c in
  if ((65 <=? n) && (n <=? 90)
      || (192 <=? n) && (n <=? 222) && negb (n =? 215))%N
  then Ascii.ascii_of_N (n + 32)
  else c.

(** [s.lower()] *)
Fixpoint lower (s : string) : string :=
  match s with
  | EmptyString => EmptyString
  | String c s' => String (lower_char c) (lower s')
  end.

(** [s.startswith(k)] *)
Fixpoint startswith (k s : string) : bool :=
  match k, s with
  | EmptyString, _ => true
  | String _ _, EmptyString => false
  | String a k', String b s' => bool_decide (a = b) && startswith k' s'
  end.

(** [k in s] on two strings: [k] occurs in [s] as a contiguous run. *)
Fixpoint str_in (k s : string) : bool :=
  startswith k s ||
  match s with
  | EmptyString => false
  | String _ s' => str_in k s'
  end.

(** [not v] for an [Optional[str]]: [None] and [''] are falsy. *)
Definition not_ (v : option string) : bool :=
  match v with
  | None => true
  | Some EmptyString => true
  | Some (String _ _) => false
  end.

(** [f"{n}"] for a length. *)
Definition fmt_nat (n : nat) : string := pretty n.

(** The backslash, which opens every JSON escape. *)
Definition backslash : ascii := Ascii.ascii_of_N 92.

(** One lower-case hexadecimal digit. *)
Definition hex_digit (n : N) : ascii :=
  Ascii.ascii_of_N (if (n <? 10)%N then 48 + n else 87 + n).

(** The JSON escape of one code point of 0..255 under [ensure_ascii]: the
    quote, the backslash and the five short escapes, a [\u00XX] for every
    other code point outside SPACE..TILDE, the character itself inside. *)
Definition json_escape (c : ascii) : string :=
  let n := Ascii.N_of_ascii c in
  if ((n =? 34) || (n =? 92))%N then String backslash (String c "")
  else if (n =? 10)%N then String backslash "n"
  else if (n =? 13)%N then String backslash "r"
  else if (n =? 9)%N then String backslash "t"
  else if (n =? 8)%N then String backslash "b"
  else if (n =? 12)%N then String backslash "f"
  else if ((n <? 32) || (126 <? n))%N then
    String backslash
      (String "u" (String "0" (String "0"
        (String (hex_digit (n / 16)) (String (hex_digit (n mod 16)) "")))))
  else String c "".

(** [json.dumps(s)] for a string. *)
Fixpoint json_escape_string (s : string) : string :=
  match s with
  | EmptyString => EmptyString
  | String c s' => json_escape c +:+ json_escape_string s'
  end.

Definition json_string (s : string) : string :=
  String (Ascii.ascii_of_N 34)
    (json_escape_string s +:+ String (Ascii.ascii_of_N 34) "").

(** The members of [json.dumps(d, indent=2)] for a dict of strings, one
    per line. *)
Fixpoint json_members (d : list (string * string)) : string :=
  match d with
  | [] => ""
  | [(k, v)] => "  " +:+ json_string k +:+ ": " +:+ json_string v
  | (k, v) :: d' =>
      "  " +:+ json_string k +:+ ": " +:+ json_string v +:+ ","
      +:+ String newline "" +:+ json_members d'
  end.

(** [json.dumps(d, indent=2)] for a dict of strings. *)
Definition json_dump (d : list (string * string)) : string :=
  match d with
  | [] => "{}"
  | _ => "{" +:+ String newline "" +:+ json_members d
         +:+ String newline "" +:+ "}"
  end.

(** Carriage return. *)
Definition carriage_return : ascii := Ascii.ascii_of_N 13.

(** What [f.read()] returns for a file opened with [open(name, 'r')] that
    holds the characters [s]: text mode with the default [newline=None]
    hands every [\r\n] and every lone [\r] back as [\n]. *)
Fixpoint universal_newlines (s : string) : string :=
  match s with
  | EmptyString => EmptyString
  | String a s' =>
      if bool_decide (a = carriage_return) then
        match s' with
        | EmptyString => String newline EmptyString
        | String b s'' =>
            if bool_decide (b = newline)
            then String newline (universal_newlines s'')
            else String newline (universal_newlines s')
        end
      else String a (universal_newlines s')
  end.

End Py.

Import Py.

(** ** tasks/config_validation.py *)

Module ConfigValidator.

(** What [self.nr.filter(name=device).run(task=napalm_get,
    getters=["config"])] comes to for one device. *)
Inductive napalm_run : Type :=
| RunRaises (e : string)
    (* the call itself raises *)
| RunFailed (e : string)
    (* [result.failed] holds; [e] is the gateway's exception *)
| RunResult (r : gmap string (gmap string pyval))
    (* [result[device].result], a dict from getter name to its data *).

(** The collaborators a [ConfigValidator] object reads: the Nornir
    inventory, the device gateway, the files under [config_dir] and the
    clock. *)
Record World : Type := {
  (* [self.nr.inventory.hosts], the host names in dict order *)
  inventory_hosts : pyresult (list string);
  (* [self.nr.filter(groups__contains=g).inventory.hosts] *)
  filter_hosts : string → pyresult (list string);
  (* the NAPALM run for one device *)
  napalm_get : string → napalm_run;
  (* file name to content; [Raise] for a file that cannot be read *)
  config_dir : gmap string (pyresult string);
  (* [datetime.now().isoformat()] *)
  now : string
}.

(** A validation result: the dict [compare_configurations] returns, a key
    that is not set being [None]. *)
Record ValidationResult : Type := {
  device : string;
  status : string;
  message : option string;
  drift_detected : bool;
  issues : list string;
  missing_lines : option (gset string);
  extra_lines : option (gset string);
  timestamp : option string
}.

Section Validator.
Context (self : World).

(** [config_data.get(key, "")] *)
Definition dict_get (d : gmap string pyval) (key : string) : pyval :=
  default (PyStr "") (d !! key).

Definition get_device_config (device_name : string) : gmap string pyval :=
  match inventory_hosts self with
  | Raise _ => ∅
  | Ok hosts =>
      if bool_decide (device_name ∈ hosts) then
        match napalm_get self device_name with
        | RunRaises _ => ∅
        | RunFailed _ => ∅
        | RunResult r =>
            match r !! "config" with
            | None => ∅
            | Some config_data =>
                <["running" := dict_get config_data "running"]>
                (<["startup" := dict_get config_data "startup"]>
                (<["candidate" := dict_get config_data "candidate"]> ∅))
            end
        end
      else ∅
  end.

(** [f"{device_name}_{config_type}.txt"], the name that is joined to
    [self.config_dir].  [config_dir] is looked up by this name as it is
    written, which is the file pathlib opens when the name holds no
    slash. *)
Definition config_file (device_name config_type : string) : string :=
  device_name +:+ "_" +:+ config_type +:+ ".txt".

Definition load_source_of_truth_config
    (device_name config_type : string) : option string :=
  match config_dir self !! config_file device_name config_type with
  | None => None
  | Some (Ok text) => Some text
  | Some (Raise _) => None
  end.

(** [v.strip().split('\n')] as a set; [None] has no [strip]. *)
Definition line_set (v : pyval) : pyresult (gset string) :=
  match v with
  | PyNone => Raise "'NoneType' object has no attribute 'strip'"
  | PyStr s => Ok (list_to_set (split_lines (strip s)))
  end.

(** The [try] block of [compare_configurations]. *)
Definition compare_try (device_name config_type : string)
    : pyresult ValidationResult :=
  let live_configs := get_device_config device_name in
  let live_config := dict_get live_configs config_type in
  let sot_config := load_source_of_truth_config device_name config_type in
  if not_ sot_config then
    Ok {| device := device_name;
          status := "error";
          message := Some "No source of truth configuration found";
          drift_detected := false;
          issues := [];
          missing_lines := None;
          extra_lines := None;
          timestamp := None |}
  else
    live_lines ← line_set live_config;
    sot_lines ← line_set (PyStr (default "" sot_config));
    let missing_in_live := sot_lines ∖ live_lines in
    let extra_in_live := live_lines ∖ sot_lines in
    let drift := bool_decide (0 < size missing_in_live)
                 || bool_decide (0 < size extra_in_live) in
    let issues1 :=
      if bool_decide (missing_in_live = ∅) then []
      else ["Missing " +:+ fmt_nat (size missing_in_live)
            +:+ " lines from source of truth"] in
    let issues2 :=
      if bool_decide (extra_in_live = ∅) then issues1
      else issues1 ++ ["Extra " +:+ fmt_nat (size extra_in_live)
                       +:+ " lines not in source of truth"] in
    Ok {| device := device_name;
          status := "success";
          message := None;
          drift_detected := drift;
          issues := issues2;
          missing_lines := Some missing_in_live;
          extra_lines := Some extra_in_live;
          timestamp := Some (now self) |}.

Definition compare_configurations (device_name config_type : string)
    : ValidationResult :=
  match compare_try device_name config_type with
  | Ok r => r
  | Raise e =>
      {| device := device_name;
         status := "error";
         message := Some e;
         drift_detected := false;
         issues := ["Comparison error: " +:+ e];
         missing_lines := None;
         extra_lines := None;
         timestamp := None |}
  end.

(** The device filter: every host for ["all"], the hosts of the group
    otherwise. *)
Definition select_devices (device_group : string) : pyresult (list string) :=
  if bool_decide (device_group = "all") then inventory_hosts self
  else filter_hosts self device_group.

(** The config types of one request: ["all"] stands for running and
    startup. *)
Definition config_types_of (config_type : string) : list string :=
  if bool_decide (config_type = "all") then ["running"; "startup"]
  else [config_type].

(** The two nested [for] loops of [validate_configurations], appending
    to [results]. *)
Definition validate_loop (config_type : string) (devices : list string)
    : list ValidationResult :=
  foldl (λ results device_name,
           let config_types := config_types_of config_type in
           foldl (λ results cfg_type,
                    results ++ [compare_configurations device_name cfg_type])
                 results config_types)
        [] devices.

(** [dry_run] is taken and never read.  [_save_validation_results]
    writes the list to a file and swallows its own failures; it does not
    touch what is returned. *)
Definition validate_configurations
    (device_group config_type : string) (dry_run : bool)
    : list ValidationResult :=
  match select_devices device_group with
  | Ok devices => validate_loop config_type devices
  | Raise e =>
      [{| device := "unknown";
          status := "error";
          message := Some e;
          drift_detected := false;
          issues := ["Validation error: " +:+ e];
          missing_lines := None;
          extra_lines := None;
          timestamp := None |}]
  end.

End Validator.

(** [f"{device_name}_{config_type}_metadata.json"] *)
Definition metadata_file (device_name config_type : string) : string :=
  device_name +:+ "_" +:+ config_type +:+ "_metadata.json".

(** A name without a slash.  [self.config_dir / name] is the file of that
    name in [config_dir] when the name holds no slash; with a slash pathlib
    takes the name apart, so that it leads to another directory, or to a
    file of [config_dir] under a second spelling (["./a"] and ["a"]). *)
Definition plain_name (name : string) : bool := negb (str_in "/" name).

(** What becomes of [with open(name, 'w') as f: f.write(text)], the close
    at the end of the block included: the open raises, and the file is as
    it was; the open succeeds, which empties the file, and the write or the
    close raises, [kept] being the part of the text that reached the file;
    the text is written in full. *)
Inductive write_outcome : Type :=
| OpenFails
| WriteFails (kept : string)
| Written.

(** The file system under [config_dir] as a save meets it: what becomes of
    writing each file, and whether the process may open it for reading
    afterwards.  What a file held before it is written plays no part: a
    file that could not be read for what it held can be read once it is
    written anew.  [config_dir] is taken as a directory on a POSIX system in
    which every name is a file of its own, without links: a file is known
    by its name, and text is written with the line ends it has. *)
Record FileSystem : Type := {
  write_outcome_of : string → write_outcome;
  readable : string → bool
}.

(** The entry of [config_dir] for a file that holds [text]: what a later
    [f.read()] in text mode returns, or the error of the [open]. *)
Definition stored (fs : FileSystem) (name text : string) : pyresult string :=
  if readable fs name then Ok (universal_newlines text)
  else Raise "[Errno 13] Permission denied".

(** A file opened with ['w'] and written: whether the block ran to its end,
    and the files as they are left. *)
Definition write_file (fs : FileSystem) (name content : string)
    (dir : gmap string (pyresult string))
    : bool * gmap string (pyresult string) :=
  match write_outcome_of fs name with
  | OpenFails => (false, dir)
  | WriteFails kept => (false, <[name := stored fs name kept]> dir)
  | Written => (true, <[name := stored fs name content]> dir)
  end.

Definition with_config_dir (self : World)
    (dir : gmap string (pyresult string)) : World :=
  {| inventory_hosts := inventory_hosts self;
     filter_hosts := filter_hosts self;
     napalm_get := napalm_get self;
     config_dir := dir;
     now := now self |}.

(** [save_source_of_truth_config]: the text file first, the metadata file
    second, and [False] as soon as one of the two writes raises.  The
    result is the returned flag and the files as they are left. *)
Definition save_source_of_truth_config (self : World) (fs : FileSystem)
    (device_name config config_type : string) : bool * World :=
  let config_file := config_file device_name config_type in
  let (written, dir1) := write_file fs config_file config (config_dir self) in
  if written then
    let metadata :=
      [ ("device", device_name); ("config_type", config_type);
        ("timestamp", now self); ("source", "manual") ] in
    let metadata_file := metadata_file device_name config_type in
    let (written, dir2) :=
      write_file fs metadata_file (json_dump metadata) dir1 in
    (written, with_config_dir self dir2)
  else (false, with_config_dir self dir1).

End ConfigValidator.

(** ** tasks/report_generator.py *)

Module ReportGenerator.
Import ConfigValidator.

(** What a report cell holds.  The success rate of the HTML report is a
    Python float; it is kept here as the exact rational it approximates. *)
Inductive value : Type :=
| VStr (s : string)
| VInt (n : nat)
| VBool (b : bool)
| VRate (q : Q).

(** One row of the HTML table, with the two CSS classes it carries. *)
Record html_row : Type := {
  row_device : string;
  status_class : string;
  row_status : string;
  drift_class : string;
  row_drift : bool;
  row_issues : string;
  row_timestamp : string
}.

(** The content written by each encoder. *)
Inductive report : Type :=
| JsonReport (report_metadata : list (string * value))
             (validation_results : list ValidationResult)
| CsvReport (rows : list (list value))
| XlsxReport (summary_data : list (string * value))
             (details : list (list value))
| HtmlReport (summary : list (string * string * value))
             (table : list html_row).

(** [sep.join(l)] *)
Fixpoint join (sep : string) (l : list string) : string :=
  match l with
  | [] => ""
  | [x] => x
  | x :: l' => x +:+ sep +:+ join sep l'
  end.

(** [len([r for r in results if r.get("drift_detected", False)])] *)
Definition count_drift (results : list ValidationResult) : nat :=
  length (filter (λ r, drift_detected r = true) results).

(** [len([r for r in results if r.get("status") == s])] *)
Definition count_status (s : string) (results : list ValidationResult) : nat :=
  length (filter (λ r, status r = s) results).

Section Generator.
(** [datetime.now()], as [isoformat()] and as
    [strftime("%Y-%m-%d %H:%M:%S")]. *)
Context (now_iso now_text : string).

Definition _generate_json_report (results : list ValidationResult) : report :=
  JsonReport
    [ ("generated_at", VStr now_iso);
      ("total_devices", VInt (length results));
      ("devices_with_drift", VInt (count_drift results));
      ("devices_with_errors", VInt (count_status "error" results)) ]
    results.

(** The six cells written for one result by the CSV and XLSX encoders. *)
Definition detail_row (result : ValidationResult) : list value :=
  let issues_text := join "; " (issues result) in
  [ VStr (device result); VStr (status result);
    VBool (drift_detected result); VInt (length (issues result));
    VStr issues_text; VStr (default "" (timestamp result)) ].

Definition detail_header : list value :=
  [ VStr "Device"; VStr "Status"; VStr "Drift Detected";
    VStr "Issues Count"; VStr "Issues"; VStr "Timestamp" ].

Definition _generate_csv_report (results : list ValidationResult) : report :=
  CsvReport (detail_header :: map detail_row results).

Definition _generate_xlsx_report (results : list ValidationResult) : report :=
  XlsxReport
    [ ("Report Generated", VStr now_text);
      ("Total Devices", VInt (length results));
      ("Devices with Drift", VInt (count_drift results));
      ("Devices with Errors", VInt (count_status "error" results));
      ("Success Rate",
       VStr (fmt_nat (count_status "success" results) +:+ "/"
             +:+ fmt_nat (length results))) ]
    (detail_header :: map detail_row results).

(** [(total - errors) / total * 100 if total > 0 else 0] *)
Definition success_rate (total_devices devices_with_errors : nat) : Q :=
  if bool_decide (0 < total_devices) then
    (inject_Z (Z.of_nat total_devices - Z.of_nat devices_with_errors)
     / inject_Z (Z.of_nat total_devices) * 100)%Q
  else 0%Q.

Definition _generate_html_report (results : list ValidationResult) : report :=
  let total_devices := length results in
  let devices_with_drift := count_drift results in
  let devices_with_errors := count_status "error" results in
  let rate := success_rate total_devices devices_with_errors in
  HtmlReport
    [ ("", "Total Devices", VInt total_devices);
      (if bool_decide (0 < devices_with_errors) then "error" else "success",
       "Errors", VInt devices_with_errors);
      (if bool_decide (0 < devices_with_drift) then "warning" else "success",
       "Drift Detected", VInt devices_with_drift);
      (if Qle_bool 90 rate then "success" else "warning",
       "Success Rate", VRate rate) ]
    (map (λ result,
            {| row_device := device result;
               status_class :=
                 if bool_decide (status result = "success")
                 then "status-success" else "status-error";
               row_status := status result;
               drift_class :=
                 if drift_detected result then "drift-yes" else "drift-no";
               row_drift := drift_detected result;
               row_issues := join "; " (issues result);
               row_timestamp := default "" (timestamp result) |})
         results).

(** The dispatch on [report_format]; the content that is written stands
    for the file whose path the method returns. *)
Definition generate_validation_report
    (validation_results : list ValidationResult) (report_format : string)
    : pyresult report :=
  if bool_decide (report_format = "json") then
    Ok (_generate_json_report validation_results)
  else if bool_decide (report_format = "csv") then
    Ok (_generate_csv_report validation_results)
  else if bool_decide (report_format = "xlsx") then
    Ok (_generate_xlsx_report validation_results)
  else if bool_decide (report_format = "html") then
    Ok (_generate_html_report validation_results)
  else Raise ("Unsupported report format: " +:+ report_format).

End Generator.

(** The aggregate values a report shows next to its per-result rows: the
    JSON metadata, the XLSX summary sheet, the HTML summary boxes.  The CSV
    file has rows only. *)
Definition aggregates (r : report) : list value :=
  match r with
  | JsonReport report_metadata _ => report_metadata.*2
  | CsvReport _ => []
  | XlsxReport summary_data _ => summary_data.*2
  | HtmlReport summary _ => summary.*2
  end.

(** The success rate in the words of the specification:
    [(total - errors) / total], and [0] when [total] is [0]. *)
Definition spec_success_rate (results : list ValidationResult) : Q :=
  match length results with
  | O => 0%Q
  | S _ =>
      (inject_Z (Z.of_nat (length results)
                 - Z.of_nat (count_status "error" results))
       / inject_Z (Z.of_nat (length results)))%Q
  end.

(** A report surfaces the success rate when one of its aggregates is that
    rate. *)
Definition surfaces_success_rate
    (r : report) (results : list ValidationResult) : Prop :=
  ∃ q, VRate q ∈ aggregates r ∧ (q == spec_success_rate results)%Q.

Definition report_formats : list string := ["json"; "csv"; "xlsx"; "html"].

(** [Path(p).name] for a path that does not end in a slash: what follows
    the last slash. *)
Fixpoint path_name (p : string) : string :=
  match p with
  | EmptyString => EmptyString
  | String c p' =>
      if str_in "/" p' then path_name p'
      else if bool_decide (c = "/"%char) then p' else p
  end.

(** What [get_report] hands back as the content of a report. *)
Inductive report_content (J : Type) : Type :=
| JsonContent (doc : J)
| TextContent (s : string).
Global Arguments JsonContent {J} doc.
Global Arguments TextContent {J} s.

(** The dict returned by [get_report], without its [path] entry, which is
    the name below [reports_dir] as the file system renders it. *)
Record report_info (J : Type) : Type := {
  info_id : string;
  info_filename : string;
  info_format : string;
  info_content : report_content J
}.
Global Arguments info_id {J} r.
Global Arguments info_filename {J} r.
Global Arguments info_format {J} r.
Global Arguments info_content {J} r.

Section Reports.
(** JSON documents and [json.loads]. *)
Context {J : Type} (json_load : string → pyresult J).
(** The files below [reports_dir], by the name they are opened with;
    [Raise] for a file that is there and cannot be read. *)
Context (reports_dir : gmap string (pyresult string)).

(** The loop of [get_report] over the formats that are not JSON. *)
Fixpoint find_alternative (report_id : string) (exts : list string)
    : option (pyresult (report_info J)) :=
  match exts with
  | [] => None
  | ext :: exts' =>
      let alt_file := report_id +:+ "." +:+ ext in
      match reports_dir !! alt_file with
      | None => find_alternative report_id exts'
      | Some file =>
          Some (content ←
                  (if bool_decide (ext ∈ ["csv"; "html"])
                   then TextContent <$> file
                   else Ok (TextContent "Binary file"));
                Ok {| info_id := report_id;
                      info_filename := path_name alt_file;
                      info_format := ext;
                      info_content := content |})
      end
  end.

Definition get_report (report_id : string) : pyresult (report_info J) :=
  let report_file := report_id +:+ ".json" in
  match reports_dir !! report_file with
  | None =>
      match find_alternative report_id ["csv"; "xlsx"; "html"] with
      | Some r => r
      | None => Raise ("Report " +:+ report_id +:+ " not found")
      end
  | Some file =>
      text ← file;
      content ← json_load text;
      Ok {| info_id := report_id;
            info_filename := path_name report_file;
            info_format := "json";
            info_content := JsonContent content |}
  end.

End Reports.

(** The encoding a report is written in. *)
Definition report_kind (r : report) : string :=
  match r with
  | JsonReport _ _ => "json"
  | CsvReport _ => "csv"
  | XlsxReport _ _ => "xlsx"
  | HtmlReport _ _ => "html"
  end.

(** The summary boxes of an HTML report. *)
Definition html_summary (r : report) : list (string * string * value) :=
  match r with
  | HtmlReport summary _ => summary
  | _ => []
  end.

End ReportGenerator.

(** ** tasks/inventory_manager.py *)

Module InventoryManager.

(** The [mapping] dict, in the order its keys are written. *)
Definition mapping : list (string * string) :=
  [ ("cisco", "ios"); ("juniper", "junos"); ("arista", "eos");
    ("hp", "procurve"); ("huawei", "vrp"); ("fortinet", "fortios");
    ("palo alto", "panos"); ("mikrotik", "ros"); ("f5", "f5");
    ("nxos", "nxos"); ("iosxr", "iosxr") ].

(** [for key, driver in items: if key in s: return driver]; [None] when
    the loop runs to its end. *)
Fixpoint first_match (items : list (string * string)) (s : string)
    : option string :=
  match items with
  | [] => None
  | (key, driver) :: items' =>
      if str_in key s then Some driver else first_match items' s
  end.

Definition _map_manufacturer_to_driver (manufacturer : string) : string :=
  let manufacturer_lower := lower manufacturer in
  match first_match mapping manufacturer_lower with
  | Some driver => driver
  | None => "ios"
  end.

(** *** The inventory files *)

(** A scalar of a YAML or JSON document. *)
Inductive scalar : Type :=
| SNull
| SStr (s : string)
| SNum (n : Z)
| SBool (b : bool).

Global Instance scalar_eq_dec : EqDecision scalar.
Proof. solve_decision. Defined.

(** One entry of [hosts.yaml].  [groups] is [None] for a host written
    without that key. *)
Record Host : Type := {
  hostname : scalar;
  groups : option (list string);
  data : list (string * scalar)
}.

Global Instance Host_eq_dec : EqDecision Host.
Proof. solve_decision. Defined.

(** A YAML file: not there, there and not loadable, or there with its
    document.  A document stands for the text [yaml.dump] writes and
    [yaml.safe_load] reads back. *)
Inductive yaml_file (A : Type) : Type :=
| NoFile
| BadFile (e : string)
| Doc (d : A).
Global Arguments NoFile {A}.
Global Arguments BadFile {A} e.
Global Arguments Doc {A} d.

(** A Python dict with string keys, in insertion order. *)
Definition dict (V : Type) : Type := list (string * V).

(** [d.get(k)] *)
Fixpoint dict_lookup {V : Type} (k : string) (d : dict V) : option V :=
  match d with
  | [] => None
  | (k', v) :: d' => if decide (k' = k) then Some v else dict_lookup k d'
  end.

(** [d[k] = v]: a key that is there keeps its place, a new key goes to
    the end. *)
Fixpoint dict_set {V : Type} (k : string) (v : V) (d : dict V) : dict V :=
  match d with
  | [] => [(k, v)]
  | (k', v') :: d' =>
      if decide (k' = k) then (k, v) :: d' else (k', v') :: dict_set k v d'
  end.

(** [del d[k]] *)
Fixpoint dict_del {V : Type} (k : string) (d : dict V) : dict V :=
  match d with
  | [] => []
  | (k', v') :: d' =>
      if decide (k' = k) then d' else (k', v') :: dict_del k d'
  end.

(** [list(d)], the keys. *)
Definition dict_keys {V : Type} (d : dict V) : list string := d.*1.

Section Inventory.
(** The entries of [groups.yaml] and of [defaults.yaml], which the
    inventory manager hands on without looking into them. *)
Context {G D : Type}.

(** The directory [inventory_dir]: its three files, and whether
    [hosts.yaml] can be opened for writing. *)
Record InventoryDir : Type := {
  hosts_yaml : yaml_file (dict Host);
  groups_yaml : yaml_file (dict G);
  defaults_yaml : yaml_file (dict D);
  hosts_writable : bool
}.

(** The dict returned by [get_inventory]. *)
Record Inventory : Type := {
  inv_hosts : dict Host;
  inv_groups : dict G;
  inv_defaults : dict D
}.

Definition empty_inventory : Inventory :=
  {| inv_hosts := []; inv_groups := []; inv_defaults := [] |}.

(** One [if file.exists(): inventory[key] = yaml.safe_load(f) or {}]. *)
Definition load_yaml {A : Type} (f : yaml_file (dict A)) : pyresult (dict A) :=
  match f with
  | NoFile => Ok []
  | BadFile e => Raise e
  | Doc d => Ok d
  end.

Definition get_inventory (self : InventoryDir) : Inventory :=
  let loaded :=
    hosts ← load_yaml (hosts_yaml self);
    groups ← load_yaml (groups_yaml self);
    defaults ← load_yaml (defaults_yaml self);
    Ok {| inv_hosts := hosts; inv_groups := groups; inv_defaults := defaults |} in
  match loaded with
  | Ok inventory => inventory
  | Raise _ => empty_inventory
  end.

(** [_save_hosts_inventory]: the whole file is replaced; a failure is
    logged and not passed on. *)
Definition _save_hosts_inventory (self : InventoryDir) (hosts : dict Host)
    : InventoryDir :=
  if hosts_writable self then
    {| hosts_yaml := Doc hosts;
       groups_yaml := groups_yaml self;
       defaults_yaml := defaults_yaml self;
       hosts_writable := hosts_writable self |}
  else self.

(** [add_device].  [kwargs] cannot hold the keys vendor and device_type,
    which are parameters of their own. *)
Definition add_device (self : InventoryDir)
    (device_name host_name : string) (device_groups : list string)
    (vendor device_type : string) (kwargs : dict scalar)
    : bool * InventoryDir :=
  let inventory := get_inventory self in
  let hosts := inv_hosts inventory in
  let hosts :=
    dict_set device_name
      {| hostname := SStr host_name;
         groups := Some device_groups;
         data := [("vendor", SStr vendor); ("device_type", SStr device_type)]
                 ++ kwargs |}
      hosts in
  (true, _save_hosts_inventory self hosts).

Definition remove_device (self : InventoryDir) (device_name : string)
    : bool * InventoryDir :=
  let inventory := get_inventory self in
  let hosts := inv_hosts inventory in
  if bool_decide (device_name ∈ dict_keys hosts) then
    (true, _save_hosts_inventory self (dict_del device_name hosts))
  else (false, self).

(** [host_data.get("groups", [])] *)
Definition host_groups (host_data : Host) : list string :=
  default [] (groups host_data).

(** [get_device_groups]: [sorted(list(groups))] of the set of all groups. *)
Definition get_device_groups (self : InventoryDir) : list string :=
  let inventory := get_inventory self in
  let groups : gset string :=
    foldl (λ groups host, groups ∪ list_to_set (host_groups host.2))
          ∅ (inv_hosts inventory) in
  merge_sort String.le (elements groups).

Definition get_devices_by_group (self : InventoryDir) (group_name : string)
    : list string :=
  let inventory := get_inventory self in
  foldl (λ devices host,
           if bool_decide (group_name ∈ host_groups host.2)
           then devices ++ [host.1] else devices)
        [] (inv_hosts inventory).

(** *** The synchronisation with NetBox and Nautobot *)

(** A key of a JSON object: not there, there with [null], there with a
    value. *)
Inductive field (A : Type) : Type :=
| Absent
| Null
| Val (a : A).
Global Arguments Absent {A}.
Global Arguments Null {A}.
Global Arguments Val {A} a.

(** An object that is read for one key: [{"address": ...}],
    [{"name": ...}], [{"value": ...}]. *)
Record device_type_object : Type := { r_manufacturer : field (field string) }.

(** A device of the [results] list, with the keys the two sync methods
    read.  The inner [field] of a nested object is the key read inside
    it. *)
Record remote_device : Type := {
  r_name : field string;
  r_primary_ip : field (field string);
  r_primary_ip4 : field (field string);
  r_device_type : field device_type_object;
  r_device_role : field (field string);
  r_site : field (field scalar);
  r_status : field (field scalar);
  r_display : field scalar;
  r_serial : field scalar;
  r_asset_tag : field scalar;
  r_id : field scalar;
  r_url : field scalar
}.

Inductive source : Type := NetBox | Nautobot.

(** [obj.get(key, {})] followed by [.get(inner, "")] on its result:
    the nested object may be missing, which reads as the empty dict, or
    [null], on which [.get] raises. *)
Definition get_nested {A : Type} (dflt : A) (null : A)
    (obj : field (field A)) : pyresult A :=
  match obj with
  | Absent => Ok dflt
  | Null => Raise "'NoneType' object has no attribute 'get'"
  | Val Absent => Ok dflt
  | Val Null => Ok null
  | Val (Val a) => Ok a
  end.

(** [obj.get(key, {}).get("name", "").lower()] *)
Definition get_lowered_name (obj : field (field string)) : pyresult string :=
  match obj with
  | Absent => Ok ""
  | Null => Raise "'NoneType' object has no attribute 'get'"
  | Val Absent => Ok ""
  | Val Null => Raise "'NoneType' object has no attribute 'lower'"
  | Val (Val s) => Ok (lower s)
  end.

(** [device.get(key, "")] for a scalar. *)
Definition get_scalar (f : field scalar) : scalar :=
  match f with
  | Absent => SStr ""
  | Null => SNull
  | Val v => v
  end.

(** [s.split("/")[0]] *)
Fixpoint before_slash (s : string) : string :=
  match s with
  | EmptyString => EmptyString
  | String c s' =>
      if bool_decide (c = "/"%char) then EmptyString
      else String c (before_slash s')
  end.

(** The address of a device without its prefix length: empty when there
    is no primary IP object or no address key in it. *)
Definition ip_address_of (primary_ip : field (field string)) : pyresult string :=
  match primary_ip with
  | Absent => Ok ""
  | Null => Ok ""
  | Val Absent => Ok ""
  | Val Null => Raise "'NoneType' object has no attribute 'split'"
  | Val (Val address) => Ok (before_slash address)
  end.

(** The body of the [for device in devices] loop: [None] for a device
    that is skipped, its name and host entry otherwise. *)
Definition convert_device (src : source) (device : remote_device)
    : pyresult (option (string * Host)) :=
  match r_name device with
  | Absent => Ok None
  | Null => Ok None
  | Val EmptyString => Ok None
  | Val device_name =>
      ip_address ← ip_address_of
                     (match src with
                      | NetBox => r_primary_ip device
                      | Nautobot => r_primary_ip4 device
                      end);
      manufacturer ←
        match r_device_type device with
        | Absent => Ok ""
        | Null => Raise "'NoneType' object has no attribute 'get'"
        | Val device_type => get_lowered_name (r_manufacturer device_type)
        end;
      let napalm_driver := _map_manufacturer_to_driver manufacturer in
      device_role ← get_lowered_name (r_device_role device);
      site ← get_nested (SStr "") SNull (r_site device);
      status ← get_nested (SStr "") SNull (r_status device);
      let id_key := match src with
                    | NetBox => "netbox_id" | Nautobot => "nautobot_id" end in
      let url_key := match src with
                     | NetBox => "netbox_url" | Nautobot => "nautobot_url" end in
      Ok (Some
            (device_name,
             {| hostname :=
                  match ip_address with
                  | EmptyString => get_scalar (r_display device)
                  | _ => SStr ip_address
                  end;
                groups :=
                  Some (match device_role, manufacturer with
                        | String _ _, String _ _ => [device_role; manufacturer]
                        | _, _ => []
                        end);
                data :=
                  [ ("vendor", SStr manufacturer);
                    ("device_type", SStr napalm_driver);
                    ("site", site);
                    ("status", status);
                    ("serial", get_scalar (r_serial device));
                    ("asset_tag", get_scalar (r_asset_tag device));
                    (id_key, get_scalar (r_id device));
                    (url_key, get_scalar (r_url device)) ] |}))
  end.

(** The loop over the devices, filling [hosts]. *)
Fixpoint convert_devices (src : source) (devices : list remote_device)
    (hosts : dict Host) : pyresult (dict Host) :=
  match devices with
  | [] => Ok hosts
  | device :: devices' =>
      entry ← convert_device src device;
      convert_devices src devices'
        (match entry with
         | None => hosts
         | Some (device_name, host) => dict_set device_name host hosts
         end)
  end.

(** [sync_from_netbox] and [sync_from_nautobot], which differ in the key
    of the primary IP and in two keys of the host data.  [response] is what
    [requests.get(...)], [raise_for_status()] and [response.json()] come
    to: an exception, or the [results] key of the answer. *)
Definition sync_from (src : source) (self : InventoryDir)
    (response : pyresult (field (list remote_device))) : bool * InventoryDir :=
  let converted :=
    results ← response;
    devices ← match results with
              | Absent => Ok []
              | Null => Raise "'NoneType' object is not iterable"
              | Val devices => Ok devices
              end;
    convert_devices src devices [] in
  match converted with
  | Ok hosts => (true, _save_hosts_inventory self hosts)
  | Raise _ => (false, self)
  end.

Definition sync_from_netbox := sync_from NetBox.
Definition sync_from_nautobot := sync_from Nautobot.

End Inventory.

End InventoryManager.

(** ** scripts/validate_configs.py *)

Module ValidateConfigs.
Import ConfigValidator ReportGenerator.

(** [save_source_of_truth]: the live configuration of the device becomes
    its baseline, unless there is none to save. *)
Definition save_source_of_truth (self : World) (fs : FileSystem)
    (device_name config_type : string) : bool * World :=
  let configs := get_device_config self device_name in
  let config := dict_get configs config_type in
  match config with
  | PyNone => (false, self)
  | PyStr EmptyString => (false, self)
  | PyStr config =>
      save_source_of_truth_config self fs device_name config config_type
  end.

(** The three numbers of the summary printed by [run_validation]. *)
Record summary : Type := {
  total_devices : nat;
  devices_with_drift : nat;
  devices_with_errors : nat
}.


End ValidateConfigs.

(** * Properties *)

Import ConfigValidator ReportGenerator InventoryManager ValidateConfigs.

(** ** Sample data used by the closed statements *)

Definition nl : string := String newline "".

(** A text made of the given lines, joined by newlines. *)
Definition text (lines : list string) : string := ReportGenerator.join nl lines.

(** A gateway that answers every device with the given running, startup and
    candidate texts. *)
Definition answering (running startup candidate : pyval) : string → napalm_run :=
  λ _, RunResult
         {[ "config" := {[ "running" := running; "startup" := startup;
                           "candidate" := candidate ]} ]}.

Definition lab (gateway : string → napalm_run)
    (files : gmap string (pyresult string)) : World :=
  {| inventory_hosts := Ok ["rtr-01"; "sw-01"; "fw-01"];
     filter_hosts := λ group, Raise ("no such group: " +:+ group);
     napalm_get := gateway;
     config_dir := files;
     now := "2024-05-01T12:00:00" |}.

Definition c1_world : World :=
  lab (λ _, RunFailed "Connection timed out")
      {[ "rtr-01_running.txt" := Ok "hostname rtr-01" ]}.

(** No baseline is saved anywhere. *)
Definition c2_world : World :=
  lab (answering (PyStr "hostname rtr-01") (PyStr "hostname rtr-01") (PyStr ""))
      ∅.

(** The scenario of the specification: three lines saved, three lines live,
    two of them shared. *)
Definition c5_world : World :=
  lab (answering (PyStr (text ["line2"; "line3"; "line4"])) (PyStr "") (PyStr ""))
      {[ "rtr-01_running.txt" := Ok (text ["line1"; "line2"; "line3"]) ]}.

(** The second device hands back nothing for its running configuration, so
    its comparison raises. *)
Definition c6_world : World :=
  lab (λ device_name,
         if bool_decide (device_name = "sw-01")
         then answering PyNone PyNone PyNone device_name
         else answering (PyStr "hostname x") (PyStr "hostname x") (PyStr "")
                        device_name)
      {[ "rtr-01_running.txt" := Ok "hostname x";
         "sw-01_running.txt" := Ok "hostname x";
         "fw-01_running.txt" := Ok "hostname x" ]}.

(** A baseline file that exists and is empty. *)
Definition c10_world : World :=
  lab (answering (PyStr "hostname rtr-01") (PyStr "") (PyStr ""))
      {[ "rtr-01_running.txt" := Ok "" ]}.

(** The result of a run that failed as a whole. *)
Definition validation_error (e : string) : ValidationResult :=
  {| device := "unknown";
     status := "error";
     message := Some e;
     drift_detected := false;
     issues := ["Validation error: " +:+ e];
     missing_lines := None;
     extra_lines := None;
     timestamp := None |}.

(** The result of a comparison that raised. *)
Definition comparison_error (device_name e : string) : ValidationResult :=
  {| device := device_name;
     status := "error";
     message := Some e;
     drift_detected := false;
     issues := ["Comparison error: " +:+ e];
     missing_lines := None;
     extra_lines := None;
     timestamp := None |}.

(** The baseline and the live text hold the same two lines in the two
    orders; the indented line comes first in the live text. *)
Definition c4_sot : string := text ["interface Gi0/1"; " shutdown"].
Definition c4_live : string := text [" shutdown"; "interface Gi0/1"].
Definition c4_world : World :=
  lab (answering (PyStr c4_live) (PyStr "") (PyStr ""))
      {[ "rtr-01_running.txt" := Ok c4_sot ]}.

(** Two texts have the same lines, whatever their order and their number
    of repetitions. *)
Definition same_line_set (a b : string) : Prop :=
  ∀ l, l ∈ split_lines a ↔ l ∈ split_lines b.

(** [k] occurs in [s]. *)
Definition contains (k s : string) : Prop := ∃ a b, s = a +:+ k +:+ b.

(** A batch of two results, one of them an error. *)
Definition c3_results : list ValidationResult :=
  [ compare_configurations c5_world "rtr-01" "running";
    compare_configurations c5_world "sw-01" "running" ].

(** A baseline with one line written three times, and a live text with the
    same lines once each, in the other order. *)
Definition c4_repeat_sot : string :=
  text ["hostname x"; "ntp server 10.0.0.1"; "ntp server 10.0.0.1";
        "ntp server 10.0.0.1"].
Definition c4_repeat_live : string := text ["ntp server 10.0.0.1"; "hostname x"].
Definition c4_repeat_world : World :=
  lab (answering (PyStr c4_repeat_live) (PyStr "") (PyStr ""))
      {[ "rtr-01_running.txt" := Ok c4_repeat_sot ]}.

(** The world of [c4_world] with the two texts in each other's place. *)
Definition c4_swapped_world : World :=
  lab (answering (PyStr c4_sot) (PyStr "") (PyStr ""))
      {[ "rtr-01_running.txt" := Ok c4_live ]}.

(** The result of a comparison that ran to its end. *)
Definition compared (self : World) (device_name live sot : string)
    : ValidationResult :=
  let live_lines : gset string := list_to_set (split_lines (strip live)) in
  let sot_lines : gset string := list_to_set (split_lines (strip sot)) in
  {| device := device_name;
     status := "success";
     message := None;
     drift_detected := bool_decide (0 < size (sot_lines ∖ live_lines))
                       || bool_decide (0 < size (live_lines ∖ sot_lines));
     issues :=
       (if bool_decide (sot_lines ∖ live_lines = ∅) then []
        else ["Missing " +:+ fmt_nat (size (sot_lines ∖ live_lines))
              +:+ " lines from source of truth"])
       ++ (if bool_decide (live_lines ∖ sot_lines = ∅) then []
           else ["Extra " +:+ fmt_nat (size (live_lines ∖ sot_lines))
                 +:+ " lines not in source of truth"]);
     missing_lines := Some (sot_lines ∖ live_lines);
     extra_lines := Some (live_lines ∖ sot_lines);
     timestamp := Some (now self) |}.

(** The lines of a text as [compare_configurations] takes them. *)
Definition lines_of (t : string) : gset string :=
  list_to_set (split_lines (strip t)).

(** The three config types a device gateway answers for. *)
Definition gateway_types : list string := ["running"; "startup"; "candidate"].

(** [t.endswith(s)] *)
Fixpoint endswith (s t : string) : bool :=
  bool_decide (s = t) ||
  match t with
  | EmptyString => false
  | String _ t' => endswith s t'
  end.

(** Every file can be written and read. *)
Definition sound_fs : FileSystem :=
  {| write_outcome_of := λ _, Written; readable := λ _, true |}.

(** The metadata files cannot be opened for writing. *)
Definition text_only_fs : FileSystem :=
  {| write_outcome_of :=
       λ name, if endswith "_metadata.json" name then OpenFails else Written;
     readable := λ _, true |}.

(** No room is left: every file can be opened for writing, which empties
    it, and nothing can be written to it. *)
Definition full_fs : FileSystem :=
  {| write_outcome_of := λ _, WriteFails ""; readable := λ _, true |}.

(** A text without a carriage return. *)
Definition no_carriage_return (s : string) : bool :=
  negb (str_in (String carriage_return "") s).

(** A configuration whose lines end in carriage return and line feed. *)
Definition crlf_config : string :=
  "hostname rtr-01" +:+ String carriage_return nl +:+ "end".

(** A device that hands out [crlf_config], and no baseline saved. *)
Definition crlf_world : World :=
  lab (answering (PyStr crlf_config) (PyStr "") (PyStr "")) ∅.

(** Three devices with a baseline each; the second cannot be reached. *)
Definition c6_fetch_world : World :=
  lab (λ device_name,
         if bool_decide (device_name = "sw-01")
         then RunFailed "Connection timed out"
         else answering (PyStr "hostname x") (PyStr "hostname x") (PyStr "")
                        device_name)
      {[ "rtr-01_running.txt" := Ok "hostname x";
         "sw-01_running.txt" := Ok "hostname x";
         "fw-01_running.txt" := Ok "hostname x" ]}.

(** A comparison that found nothing to report. *)
Definition no_drift (self : World) (device_name : string) : ValidationResult :=
  {| device := device_name;
     status := "success";
     message := None;
     drift_detected := false;
     issues := [];
     missing_lines := Some ∅;
     extra_lines := Some ∅;
     timestamp := Some (now self) |}.

(** A reports directory that holds one report in two encodings and one
    in a third. *)
Definition sample_reports : gmap string (pyresult string) :=
  {[ "validation_report_1.xlsx" := Ok "PK";
     "validation_report_1.html" := Ok "<html></html>";
     "validation_report_2.json" := Ok "{}" ]}.

(** A JSON reader that keeps the text as the document. *)
Definition sample_json_load : string → pyresult string := Ok.

(** A result is a success, or an error that reports no drift. *)
Definition success_or_error (r : ValidationResult) : Prop :=
  (status r = "success") ∨ (status r = "error" ∧ drift_detected r = false).

(** The two hosts of the default inventory. *)
Definition sample_hosts : dict Host :=
  [ ("rtr-01",
     {| hostname := SStr "192.168.1.1";
        groups := Some ["routers"; "cisco"];
        data := [("vendor", SStr "cisco"); ("device_type", SStr "ios")] |});
    ("sw-01",
     {| hostname := SStr "192.168.1.2";
        groups := Some ["switches"; "cisco"];
        data := [("vendor", SStr "cisco"); ("device_type", SStr "ios")] |}) ].

(** An inventory directory with the two hosts, no groups and no defaults
    file. *)
Definition sample_dir : @InventoryDir unit unit :=
  {| hosts_yaml := Doc sample_hosts;
     groups_yaml := NoFile;
     defaults_yaml := NoFile;
     hosts_writable := true |}.



(** The host entry [add_device] writes. *)
Definition added_host (host_name : string) (device_groups : list string)
    (vendor device_type : string) (kwargs : dict scalar) : Host :=
  {| hostname := SStr host_name;
     groups := Some device_groups;
     data := [("vendor", SStr vendor); ("device_type", SStr device_type)]
             ++ kwargs |}.

(** The hosts [get_inventory] returns. *)
Definition hosts_of {G D : Type} (self : @InventoryDir G D) : dict Host :=
  inv_hosts (get_inventory self).

(** The groups and the defaults file are not there or load. *)
Definition side_files_load {G D : Type} (self : @InventoryDir G D) : Prop :=
  (∀ e, groups_yaml self ≠ BadFile e) ∧ (∀ e, defaults_yaml self ≠ BadFile e).

(** What the two sync methods write for a device: a vendor in lower case,
    the driver the table gives for it, and as groups either nothing or the
    role and the vendor. *)
Definition synced_host (h : Host) : Prop :=
  ∃ v, lower v = v
       ∧ dict_lookup "vendor" (data h) = Some (SStr v)
       ∧ dict_lookup "device_type" (data h)
         = Some (SStr (_map_manufacturer_to_driver v))
       ∧ (groups h = Some []
          ∨ ∃ role, role ≠ "" ∧ v ≠ "" ∧ lower role = role
                    ∧ groups h = Some [role; v]).

(** The primary IP object a sync method reads. *)
Definition primary_ip_of (src : source) (d : remote_device)
    : field (field string) :=
  match src with
  | NetBox => r_primary_ip d
  | Nautobot => r_primary_ip4 d
  end.

(** A device of a listing with nothing but a name, an address and a
    manufacturer. *)
Definition remote (name address manufacturer : field string) : remote_device :=
  {| r_name := name;
     r_primary_ip := Val address;
     r_primary_ip4 := Val address;
     r_device_type := Val {| r_manufacturer := Val manufacturer |};
     r_device_role := Val (Val "Router");
     r_site := Absent;
     r_status := Absent;
     r_display := Val (SStr "display name");
     r_serial := Absent;
     r_asset_tag := Null;
     r_id := Val (SNum 7);
     r_url := Absent |}.

(** A listing of three devices, one of them without a name. *)
Definition sample_listing : list remote_device :=
  [ remote (Val "edge-1") (Val "10.0.0.1/24") (Val "Juniper Networks");
    remote Null (Val "10.0.0.2/24") (Val "Cisco");
    remote (Val "core-1") Absent (Val "Cisco Systems") ].

(** The first device of the listing with a [null] device type. *)
Definition broken_device : remote_device :=
  {| r_name := Val "edge-2";
     r_primary_ip := Absent;
     r_primary_ip4 := Absent;
     r_device_type := Null;
     r_device_role := Absent;
     r_site := Absent;
     r_status := Absent;
     r_display := Absent;
     r_serial := Absent;
     r_asset_tag := Absent;
     r_id := Absent;
     r_url := Absent |}.

(** Closed statements are decided by evaluation. *)
Ltac evaluate :=
  intros; cbv zeta; apply (bool_decide_unpack _); vm_compute; exact I.

(** ** Shape of the results *)

Definition no_source_of_truth (device_name : string) : ValidationResult :=
  {| device := device_name;
     status := "error";
     message := Some "No source of truth configuration found";
     drift_detected := false;
     issues := [];
     missing_lines := None;
     extra_lines := None;
     timestamp := None |}.

Lemma compare_falsy_baseline (self : World) (device_name config_type : string) :
  not_ (load_source_of_truth_config self device_name config_type) = true →
  compare_configurations self device_name config_type
  = no_source_of_truth device_name.
Proof.
  intros Hfalsy. unfold compare_configurations, compare_try.
  by rewrite Hfalsy.
Qed.

(** What the comparison returns once both texts are at hand. *)
Lemma compare_texts (self : World) (device_name config_type live sot : string) :
  dict_get (get_device_config self device_name) config_type = PyStr live →
  load_source_of_truth_config self device_name config_type = Some sot →
  sot ≠ "" →
  let live_lines : gset string := list_to_set (split_lines (strip live)) in
  let sot_lines : gset string := list_to_set (split_lines (strip sot)) in
  compare_configurations self device_name config_type
  = {| device := device_name;
       status := "success";
       message := None;
       drift_detected := bool_decide (0 < size (sot_lines ∖ live_lines))
                         || bool_decide (0 < size (live_lines ∖ sot_lines));
       issues :=
         (if bool_decide (sot_lines ∖ live_lines = ∅) then []
          else ["Missing " +:+ fmt_nat (size (sot_lines ∖ live_lines))
                +:+ " lines from source of truth"])
         ++ (if bool_decide (live_lines ∖ sot_lines = ∅) then []
             else ["Extra " +:+ fmt_nat (size (live_lines ∖ sot_lines))
                   +:+ " lines not in source of truth"]);
       missing_lines := Some (sot_lines ∖ live_lines);
       extra_lines := Some (live_lines ∖ sot_lines);
       timestamp := Some (now self) |}.
Proof.
  intros Hlive Hsot Hne. unfold compare_configurations, compare_try.
  rewrite Hlive, Hsot. destruct sot as [|c sot']; [done|]. simpl.
  f_equal. by case_bool_decide; case_bool_decide; rewrite ?app_nil_r.
Qed.

(** A gateway failure leaves [get_device_config] with the empty dict, so the
    live text of every config type is the empty string. *)
Lemma fetch_failed_live_empty (self : World) (device_name config_type e : string) :
  napalm_get self device_name = RunFailed e →
  dict_get (get_device_config self device_name) config_type = PyStr "".
Proof.
  intros Hrun. unfold get_device_config. rewrite Hrun.
  destruct (inventory_hosts self); [case_bool_decide|]; done.
Qed.

(** [len(a - b) > 0 or len(b - a) > 0] says that the two sets differ. *)
Lemma drift_iff_differ (a b : gset string) :
  bool_decide (0 < size (a ∖ b)) || bool_decide (0 < size (b ∖ a))
  = bool_decide (a ≠ b).
Proof.
  destruct (decide (a = b)) as [->|Hne].
  - rewrite difference_diag_L, size_empty.
    rewrite (bool_decide_eq_false_2 (b ≠ b)) by (intros Hb; by apply Hb).
    by rewrite (bool_decide_eq_false_2 (0 < 0)) by lia.
  - rewrite (bool_decide_eq_true_2 (a ≠ b)) by done.
    apply orb_true_iff.
    destruct (decide (a ∖ b = ∅)) as [Hab|Hab];
      [destruct (decide (b ∖ a = ∅)) as [Hba|Hba]|].
    + exfalso. apply Hne, set_eq. intros x. split; intros Hx.
      * destruct (decide (x ∈ b)); [done|]. set_solver.
      * destruct (decide (x ∈ a)); [done|]. set_solver.
    + right. apply bool_decide_eq_true_2.
      assert (size (b ∖ a) ≠ 0); [|lia].
      rewrite size_non_empty_iff. by intros ?%leibniz_equiv.
    + left. apply bool_decide_eq_true_2.
      assert (size (a ∖ b) ≠ 0); [|lia].
      rewrite size_non_empty_iff. by intros ?%leibniz_equiv.
Qed.

(** ** C1: a failed fetch is compared as an empty live text *)

(** C1.  The specification asks for status "error" when the gateway fetch
    fails.  The code does otherwise: [get_device_config] swallows the
    failure and returns the empty dict, and [compare_configurations] goes on
    to compare the saved baseline with the empty live text.  With a
    non-empty baseline the result has status "success", no message, the two
    differences are taken against the one-line set [{""}], and drift is
    reported unless the baseline is blank. *)
Theorem C1_fetch_failure_compared_as_empty
    (self : World) (device_name config_type e sot : string) :
  napalm_get self device_name = RunFailed e →
  load_source_of_truth_config self device_name config_type = Some sot →
  sot ≠ "" →
  let r := compare_configurations self device_name config_type in
  let sot_lines : gset string := list_to_set (split_lines (strip sot)) in
  status r = "success"
  ∧ message r = None
  ∧ missing_lines r = Some (sot_lines ∖ {[ "" ]})
  ∧ extra_lines r = Some ({[ "" ]} ∖ sot_lines)
  ∧ drift_detected r = bool_decide (sot_lines ≠ {[ "" ]}).
Proof.
  intros Hrun Hsot Hne r sot_lines. subst r.
  rewrite (compare_texts self device_name config_type "" sot)
    by eauto using fetch_failed_live_empty.
  cbn [status message missing_lines extra_lines drift_detected].
  change (list_to_set (split_lines (strip ""))) with ({[ "" ]} ∪ ∅ : gset string).
  rewrite (right_id_L ∅ (∪)). fold sot_lines.
  by rewrite drift_iff_differ.
Qed.

Lemma C1_fetch_failure_witness :
  let r := compare_configurations c1_world "rtr-01" "running" in
  let sot_lines : gset string :=
    list_to_set (split_lines (strip "hostname rtr-01")) in
  status r = "success"
  ∧ message r = None
  ∧ missing_lines r = Some (sot_lines ∖ {[ "" ]})
  ∧ extra_lines r = Some ({[ "" ]} ∖ sot_lines)
  ∧ drift_detected r = bool_decide (sot_lines ≠ {[ "" ]}).
Proof.
  apply (C1_fetch_failure_compared_as_empty
           c1_world "rtr-01" "running" "Connection timed out");
    [reflexivity | reflexivity | discriminate].
Defined.

(** The failing input of C1, evaluated: the unreachable device is reported
    as a successful comparison with drift. *)
Example fetch_failure_evaluated :
  let r := compare_configurations c1_world "rtr-01" "running" in
  status r = "success"
  ∧ drift_detected r = true
  ∧ issues r = ["Missing 1 lines from source of truth";
                "Extra 1 lines not in source of truth"]
  ∧ missing_lines r = Some {[ "hostname rtr-01" ]}
  ∧ extra_lines r = Some {[ "" ]}.
Proof. evaluate. Qed.

(** ** C2, C10: no baseline, empty baseline *)

(** C2 (as amended).  With no saved baseline the comparison returns status
    "error", drift_detected false, the message "No source of truth
    configuration found" and an empty issues list: the text is carried by
    [message], not by an entry of [issues]. *)
Theorem C2_no_baseline_error (self : World) (device_name config_type : string) :
  load_source_of_truth_config self device_name config_type = None →
  compare_configurations self device_name config_type
  = no_source_of_truth device_name.
Proof. intros Hnone. apply compare_falsy_baseline. by rewrite Hnone. Qed.

Lemma C2_no_baseline_witness :
  load_source_of_truth_config c2_world "rtr-01" "running" = None
  ∧ compare_configurations c2_world "rtr-01" "running"
    = no_source_of_truth "rtr-01".
Proof.
  split; [reflexivity|].
  apply (C2_no_baseline_error c2_world "rtr-01" "running"). reflexivity.
Defined.

(** C2 as stated fails: on a device without a baseline the issues list is
    empty, it does not hold one "no source of truth" entry. *)
Lemma C2_issues_entry_counterexample :
  load_source_of_truth_config c2_world "rtr-01" "running" = None
  ∧ ¬ (let r := compare_configurations c2_world "rtr-01" "running" in
       status r = "error" ∧ drift_detected r = false
       ∧ ∃ entry, issues r = [entry]
                  ∧ str_in "no source of truth" (lower entry) = true).
Proof.
  split; [reflexivity|].
  intros (_ & _ & entry & Hissues & _).
  vm_compute in Hissues. discriminate Hissues.
Qed.

(** C10.  A baseline file that exists and is empty is loaded as the empty
    text, not as absent, and the comparison still answers as if there were
    no baseline. *)
Theorem C10_empty_baseline_as_absent
    (self : World) (device_name config_type : string) :
  config_dir self !! config_file device_name config_type = Some (Ok "") →
  load_source_of_truth_config self device_name config_type = Some ""
  ∧ compare_configurations self device_name config_type
    = no_source_of_truth device_name.
Proof.
  intros Hfile.
  assert (load_source_of_truth_config self device_name config_type = Some "")
    as Hload by (unfold load_source_of_truth_config; by rewrite Hfile).
  split; [done|]. apply compare_falsy_baseline. by rewrite Hload.
Qed.

Lemma C10_empty_baseline_witness :
  load_source_of_truth_config c10_world "rtr-01" "running" = Some ""
  ∧ compare_configurations c10_world "rtr-01" "running"
    = no_source_of_truth "rtr-01".
Proof.
  apply (C10_empty_baseline_as_absent c10_world "rtr-01" "running").
  vm_compute. reflexivity.
Defined.

(** ** C5: the concrete scenario *)

(** C5.  Baseline line1, line2, line3 against live line2, line3, line4:
    line1 is missing, line4 is extra, drift is detected, the status is
    "success" and there is one summary entry per side. *)
Theorem C5_concrete_scenario (self : World) (device_name config_type : string) :
  dict_get (get_device_config self device_name) config_type
  = PyStr (text ["line2"; "line3"; "line4"]) →
  load_source_of_truth_config self device_name config_type
  = Some (text ["line1"; "line2"; "line3"]) →
  compare_configurations self device_name config_type
  = {| device := device_name;
       status := "success";
       message := None;
       drift_detected := true;
       issues := ["Missing 1 lines from source of truth";
                  "Extra 1 lines not in source of truth"];
       missing_lines := Some {[ "line1" ]};
       extra_lines := Some {[ "line4" ]};
       timestamp := Some (now self) |}.
Proof.
  intros Hlive Hsot.
  rewrite (compare_texts self device_name config_type _ _ Hlive Hsot)
    by discriminate.
  f_equal; evaluate.
Qed.

Lemma C5_concrete_scenario_witness :
  compare_configurations c5_world "rtr-01" "running"
  = {| device := "rtr-01";
       status := "success";
       message := None;
       drift_detected := true;
       issues := ["Missing 1 lines from source of truth";
                  "Extra 1 lines not in source of truth"];
       missing_lines := Some {[ "line1" ]};
       extra_lines := Some {[ "line4" ]};
       timestamp := Some "2024-05-01T12:00:00" |}.
Proof.
  apply (C5_concrete_scenario c5_world "rtr-01" "running");
    vm_compute; reflexivity.
Defined.

(** ** C6, C7, C8: the orchestrator *)

(** The inner loop appends one comparison per config type. *)
Lemma inner_loop_app (self : World) (device_name : string)
    (config_types : list string) (results : list ValidationResult) :
  foldl (λ results cfg_type,
           results ++ [compare_configurations self device_name cfg_type])
        results config_types
  = results ++ (compare_configurations self device_name <$> config_types).
Proof.
  revert results. induction config_types as [|c cs IH]; intros results; simpl.
  - by rewrite app_nil_r.
  - by rewrite IH, <- app_assoc.
Qed.

(** The nested loops visit the devices in order and, for each device, its
    config types in order. *)
Lemma validate_loop_bind (self : World) (config_type : string)
    (devices : list string) :
  validate_loop self config_type devices
  = devices ≫= (λ device_name,
                  compare_configurations self device_name
                  <$> config_types_of config_type).
Proof.
  unfold validate_loop.
  enough (∀ acc,
            foldl (λ results device_name,
                     let config_types := config_types_of config_type in
                     foldl (λ results cfg_type,
                              results
                              ++ [compare_configurations self device_name cfg_type])
                           results config_types)
                  acc devices
            = acc ++ (devices ≫= (λ device_name,
                                    compare_configurations self device_name
                                    <$> config_types_of config_type)))
    as Hacc by apply (Hacc []).
  induction devices as [|d ds IH]; intros acc; simpl.
  - by rewrite app_nil_r.
  - by rewrite IH, inner_loop_app, <- app_assoc.
Qed.

(** A comparison always names the device it was asked about. *)
Lemma compare_device (self : World) (device_name config_type : string) :
  device (compare_configurations self device_name config_type) = device_name.
Proof.
  unfold compare_configurations, compare_try.
  destruct (not_ _); [done|].
  by destruct (dict_get _ _).
Qed.

(** A comparison that raises is answered by the handler. *)
Lemma compare_raise (self : World) (device_name config_type e : string) :
  compare_try self device_name config_type = Raise e →
  compare_configurations self device_name config_type
  = comparison_error device_name e.
Proof. intros Hraise. unfold compare_configurations. by rewrite Hraise. Qed.

(** When the device set is resolved, the batch holds one result for every
    (device, config type) pair, in order, each naming its device; a
    comparison that raises is recorded in its own result with status
    "error" and the results of the other pairs are there all the same. *)
Lemma batch_isolates_raised_comparison
    (self : World) (device_group config_type : string) (dry_run : bool)
    (devices : list string) :
  select_devices self device_group = Ok devices →
  let pairs := devices ≫= (λ d, pair d <$> config_types_of config_type) in
  let results := validate_configurations self device_group config_type dry_run in
  length results = length pairs
  ∧ ∀ (i : nat) (d c : string),
      pairs !! i = Some (d, c) →
      ∃ r, results !! i = Some r
           ∧ r = compare_configurations self d c
           ∧ device r = d
           ∧ ∀ e, compare_try self d c = Raise e →
                  status r = "error" ∧ drift_detected r = false
                  ∧ message r = Some e
                  ∧ issues r = ["Comparison error: " +:+ e].
Proof.
  intros Hsel pairs results.
  assert (results = (λ p, compare_configurations self p.1 p.2) <$> pairs)
    as ->.
  { subst results pairs. unfold validate_configurations. rewrite Hsel.
    rewrite validate_loop_bind. clear Hsel.
    induction devices as [|d ds IH]; [done|].
    rewrite !bind_cons, fmap_app, <- IH. f_equal.
    by rewrite <- list_fmap_compose. }
  split; [by rewrite length_fmap|].
  intros i d c Hi. eexists. split; [by rewrite list_lookup_fmap, Hi|].
  simpl. split; [done|]. split; [apply compare_device|].
  intros e Hraise. by rewrite (compare_raise _ _ _ _ Hraise).
Qed.

Lemma batch_isolates_raised_comparison_witness :
  let pairs := ["rtr-01"; "sw-01"; "fw-01"]
               ≫= (λ d, pair d <$> config_types_of "running") in
  let results := validate_configurations c6_world "all" "running" true in
  length results = length pairs
  ∧ ∀ (i : nat) (d c : string),
      pairs !! i = Some (d, c) →
      ∃ r, results !! i = Some r
           ∧ r = compare_configurations c6_world d c
           ∧ device r = d
           ∧ ∀ e, compare_try c6_world d c = Raise e →
                  status r = "error" ∧ drift_detected r = false
                  ∧ message r = Some e
                  ∧ issues r = ["Comparison error: " +:+ e].
Proof.
  apply (batch_isolates_raised_comparison c6_world "all" "running" true).
  reflexivity.
Defined.

(** Three devices, the second of which raises in its comparison: three
    results, the second an error, the first and the third untouched. *)
Example partial_failure_evaluated :
  (λ r, (device r, status r, drift_detected r, issues r))
  <$> validate_configurations c6_world "all" "running" true
  = [ ("rtr-01", "success", false, []);
      ("sw-01", "error", false,
       ["Comparison error: 'NoneType' object has no attribute 'strip'"]);
      ("fw-01", "success", false, []) ].
Proof. evaluate. Qed.

(** The batch is the list of the comparisons of the (device, config type)
    pairs, in order. *)
Lemma validate_results_by_pair
    (self : World) (device_group config_type : string) (dry_run : bool)
    (devices : list string) :
  select_devices self device_group = Ok devices →
  validate_configurations self device_group config_type dry_run
  = (λ p, compare_configurations self p.1 p.2)
    <$> (devices ≫= (λ d, pair d <$> config_types_of config_type)).
Proof.
  intros Hsel. unfold validate_configurations. rewrite Hsel.
  rewrite validate_loop_bind. clear Hsel.
  induction devices as [|d ds IH]; [done|].
  rewrite !bind_cons, fmap_app, <- IH. f_equal.
  by rewrite <- list_fmap_compose.
Qed.

(** C6.  The specification asks that in a batch a device whose gateway
    fetch fails be recorded with status "error" in its own result, the
    other devices being processed all the same.  The code does keep the
    batch going: there is one result for every (device, config type) pair,
    in order, each the comparison of its own pair.  But the result of the
    device whose fetch failed does not have status "error" when a baseline
    is saved for it: [get_device_config] has swallowed the failure, the
    defect of C1, and the baseline is compared with the empty live text.
    The result has status "success" and no message, and reports drift
    unless the baseline is blank. *)
Theorem C6_failed_fetch_not_an_error
    (self : World) (device_group config_type : string) (dry_run : bool)
    (devices : list string) (i : nat) (d c e sot : string) :
  select_devices self device_group = Ok devices →
  let pairs := devices ≫= (λ d, pair d <$> config_types_of config_type) in
  let results := validate_configurations self device_group config_type dry_run in
  pairs !! i = Some (d, c) →
  napalm_get self d = RunFailed e →
  load_source_of_truth_config self d c = Some sot →
  sot ≠ "" →
  length results = length pairs
  ∧ (∀ (j : nat) (d' c' : string),
       pairs !! j = Some (d', c') →
       ∃ r', results !! j = Some r'
             ∧ r' = compare_configurations self d' c'
             ∧ device r' = d')
  ∧ ∃ r, results !! i = Some r
         ∧ device r = d
         ∧ status r = "success"
         ∧ message r = None
         ∧ drift_detected r = bool_decide (lines_of sot ≠ {[ "" ]}).
Proof.
  intros Hsel pairs results Hi Hrun Hsot Hne.
  assert (results = (λ p, compare_configurations self p.1 p.2) <$> pairs)
    as -> by by apply validate_results_by_pair.
  split; [by rewrite length_fmap|]. split.
  - intros j d' c' Hj. eexists. split; [by rewrite list_lookup_fmap, Hj|].
    simpl. split; [done|]. apply compare_device.
  - eexists. split; [by rewrite list_lookup_fmap, Hi|]. simpl.
    rewrite (compare_texts self d c "" sot)
      by eauto using fetch_failed_live_empty.
    cbn [device status message drift_detected].
    repeat (split; [done|]).
    change (list_to_set (split_lines (strip "")))
      with ({[ "" ]} ∪ ∅ : gset string).
    rewrite (right_id_L ∅ (∪)). apply drift_iff_differ.
Qed.

Lemma C6_failed_fetch_witness :
  let pairs := ["rtr-01"; "sw-01"; "fw-01"]
               ≫= (λ d, pair d <$> config_types_of "running") in
  let results := validate_configurations c6_fetch_world "all" "running" true in
  length results = length pairs
  ∧ (∀ (j : nat) (d' c' : string),
       pairs !! j = Some (d', c') →
       ∃ r', results !! j = Some r'
             ∧ r' = compare_configurations c6_fetch_world d' c'
             ∧ device r' = d')
  ∧ ∃ r, results !! 1 = Some r
         ∧ device r = "sw-01"
         ∧ status r = "success"
         ∧ message r = None
         ∧ drift_detected r = bool_decide (lines_of "hostname x" ≠ {[ "" ]}).
Proof.
  apply (C6_failed_fetch_not_an_error c6_fetch_world "all" "running" true
           ["rtr-01"; "sw-01"; "fw-01"] 1 "sw-01" "running"
           "Connection timed out" "hostname x");
    [reflexivity | reflexivity | reflexivity | reflexivity | discriminate].
Defined.

(** The failing input of C6, evaluated: three devices with a baseline
    each, the second of which cannot be reached.  There are three results;
    the second is a success with drift, not an error. *)
Example failed_fetch_in_batch_evaluated :
  (λ r, (device r, status r, message r, drift_detected r, issues r))
  <$> validate_configurations c6_fetch_world "all" "running" true
  = [ ("rtr-01", "success", None, false, []);
      ("sw-01", "success", None, true,
       ["Missing 1 lines from source of truth";
        "Extra 1 lines not in source of truth"]);
      ("fw-01", "success", None, false, []) ].
Proof. evaluate. Qed.

(** C7.  Config type "all" gives two results per device, the running one
    and then the startup one; any other config type gives the one result of
    that type.  No comparison of the candidate configuration is made for
    "all". *)
Theorem C7_all_is_running_then_startup
    (self : World) (device_group : string) (dry_run : bool)
    (devices : list string) :
  select_devices self device_group = Ok devices →
  validate_configurations self device_group "all" dry_run
  = devices ≫= (λ d, [ compare_configurations self d "running";
                       compare_configurations self d "startup" ])
  ∧ ∀ config_type,
      config_type ≠ "all" →
      validate_configurations self device_group config_type dry_run
      = (λ d, compare_configurations self d config_type) <$> devices.
Proof.
  intros Hsel. unfold validate_configurations. rewrite Hsel.
  split; [by rewrite validate_loop_bind|].
  intros config_type Hne. rewrite validate_loop_bind.
  unfold config_types_of. rewrite bool_decide_eq_false_2 by done.
  clear. induction devices as [|d ds IH]; [done|].
  by rewrite bind_cons, fmap_cons, IH.
Qed.

Lemma C7_all_witness :
  validate_configurations c5_world "all" "all" true
  = ["rtr-01"; "sw-01"; "fw-01"]
    ≫= (λ d, [ compare_configurations c5_world d "running";
               compare_configurations c5_world d "startup" ])
  ∧ ∀ config_type,
      config_type ≠ "all" →
      validate_configurations c5_world "all" config_type true
      = (λ d, compare_configurations c5_world d config_type)
        <$> ["rtr-01"; "sw-01"; "fw-01"].
Proof.
  apply (C7_all_is_running_then_startup c5_world "all" true). reflexivity.
Defined.

(** C8.  When the device set cannot be resolved the run returns one result
    and no more: device "unknown", status "error", drift_detected false, the
    failure as its message and as its one issue. *)
Theorem C8_total_failure_sentinel
    (self : World) (device_group config_type e : string) (dry_run : bool) :
  select_devices self device_group = Raise e →
  validate_configurations self device_group config_type dry_run
  = [ validation_error e ].
Proof. intros Hsel. unfold validate_configurations. by rewrite Hsel. Qed.

Lemma C8_total_failure_witness :
  validate_configurations c5_world "routers" "running" true
  = [ validation_error "no such group: routers" ].
Proof.
  apply (C8_total_failure_sentinel c5_world "routers" "running"). reflexivity.
Defined.

(** ** C4: line order and repetitions *)

Lemma same_line_set_to_set (a b : string) :
  same_line_set a b →
  list_to_set (split_lines a) =@{gset string} list_to_set (split_lines b).
Proof.
  intros Hsame. apply set_eq. intros l.
  rewrite !elem_of_list_to_set. apply Hsame.
Qed.

(** C4 (as amended).  Whitespace is stripped from the two ends of each
    whole text before it is cut into lines.  Two texts whose stripped forms
    have the same lines, in any order and with any repetitions, show no
    drift. *)
Theorem C4_same_stripped_lines_no_drift
    (self : World) (device_name config_type live sot : string) :
  dict_get (get_device_config self device_name) config_type = PyStr live →
  load_source_of_truth_config self device_name config_type = Some sot →
  same_line_set (strip live) (strip sot) →
  drift_detected (compare_configurations self device_name config_type) = false.
Proof.
  intros Hlive Hsot Hsame.
  destruct (decide (sot = "")) as [->|Hne].
  - rewrite compare_falsy_baseline; [done|]. by rewrite Hsot.
  - rewrite (compare_texts self device_name config_type live sot) by done.
    cbn [drift_detected]. rewrite drift_iff_differ.
    apply bool_decide_eq_false_2. intros Hdiff. apply Hdiff.
    symmetry. by apply same_line_set_to_set.
Qed.

Lemma C4_same_stripped_lines_witness :
  drift_detected (compare_configurations c4_repeat_world "rtr-01" "running")
  = false.
Proof.
  apply (C4_same_stripped_lines_no_drift
           c4_repeat_world "rtr-01" "running" c4_repeat_live c4_repeat_sot);
    [vm_compute; reflexivity | vm_compute; reflexivity |].
  intros l.
  change (split_lines (strip c4_repeat_live))
    with ["ntp server 10.0.0.1"; "hostname x"].
  change (split_lines (strip c4_repeat_sot))
    with ["hostname x"; "ntp server 10.0.0.1"; "ntp server 10.0.0.1";
          "ntp server 10.0.0.1"].
  rewrite !elem_of_cons, !elem_of_nil. tauto.
Defined.

(** Texts that neither begin nor end with whitespace are left as they are
    by [strip], so for them the lines of the raw texts decide. *)
Corollary no_drift_when_ends_are_clean
    (self : World) (device_name config_type live sot : string) :
  dict_get (get_device_config self device_name) config_type = PyStr live →
  load_source_of_truth_config self device_name config_type = Some sot →
  strip live = live → strip sot = sot →
  same_line_set live sot →
  drift_detected (compare_configurations self device_name config_type) = false.
Proof.
  intros Hlive Hsot Hl Hs Hsame.
  destruct (decide (sot = "")) as [->|Hne].
  - rewrite compare_falsy_baseline; [done|]. by rewrite Hsot.
  - rewrite (compare_texts self device_name config_type live sot) by done.
    cbn [drift_detected]. rewrite drift_iff_differ, Hl, Hs.
    apply bool_decide_eq_false_2. intros Hdiff. apply Hdiff.
    symmetry. by apply same_line_set_to_set.
Qed.

(** C4 as stated fails: the two texts hold the same lines in two orders,
    and drift is reported.  Stripping the live text removes the indentation
    of its first line, which the same line keeps inside the baseline. *)
Lemma C4_reordered_lines_counterexample :
  ¬ (same_line_set c4_live c4_sot →
     drift_detected (compare_configurations c4_world "rtr-01" "running")
     = false).
Proof.
  intros Hclaim.
  assert (drift_detected (compare_configurations c4_world "rtr-01" "running")
          = true) as Hdrift by evaluate.
  rewrite Hclaim in Hdrift; [discriminate|].
  intros l. change (split_lines c4_live) with [" shutdown"; "interface Gi0/1"].
  change (split_lines c4_sot) with ["interface Gi0/1"; " shutdown"].
  rewrite !elem_of_cons, !elem_of_nil. tauto.
Qed.

(** ** C9: the vendor table *)


Lemma startswith_spec (k s : string) :
  startswith k s = true ↔ ∃ b, s = k +:+ b.
Proof.
  revert s. induction k as [|a k IH]; intros s; simpl.
  - split; [intros _; by exists s|done].
  - destruct s as [|c s]; simpl.
    + split; [done|]. by intros [b Hb].
    + rewrite andb_true_iff, bool_decide_eq_true, IH. split.
      * intros [-> [b ->]]. by exists b.
      * intros [b Hb]. injection Hb as -> ->. eauto.
Qed.

(** [k in s] holds exactly when [s] is some text, then [k], then some
    text. *)
Lemma str_in_spec (k s : string) : str_in k s = true ↔ contains k s.
Proof.
  unfold contains. induction s as [|c s IH]; simpl.
  - rewrite orb_false_r, startswith_spec. split.
    + intros [b Hb]. by exists "", b.
    + intros ([|c a] & b & Hab); [by exists b|done].
  - rewrite orb_true_iff, startswith_spec, IH. split.
    + intros [[b Hb]|(a & b & ->)]; [by exists "", b|by exists (String c a), b].
    + intros ([|c' a] & b & Hab); [left; by exists b|].
      injection Hab as -> ->. right. eauto.
Qed.

Lemma str_in_false (k s : string) : str_in k s = false ↔ ¬ contains k s.
Proof. rewrite <- str_in_spec. by destruct (str_in k s). Qed.

(** The loop returns the driver of the first key that occurs. *)
Lemma first_match_first (pre post : list (string * string))
    (key driver s : string) :
  str_in key s = true →
  (∀ key' driver', (key', driver') ∈ pre → str_in key' s = false) →
  first_match (pre ++ (key, driver) :: post) s = Some driver.
Proof.
  intros Hkey. induction pre as [|[k d] pre IH]; intros Hpre; simpl.
  - by rewrite Hkey.
  - rewrite (Hpre k d) by left. apply IH. intros k' d' Hin.
    apply (Hpre k' d'). by right.
Qed.

(** The loop runs to its end when no key occurs. *)
Lemma first_match_none (items : list (string * string)) (s : string) :
  (∀ key driver, (key, driver) ∈ items → str_in key s = false) →
  first_match items s = None.
Proof.
  induction items as [|[k d] items IH]; intros Hnone; simpl; [done|].
  rewrite (Hnone k d) by left. apply IH. intros k' d' Hin.
  apply (Hnone k' d'). by right.
Qed.

(** A check of all the keys of a table at once. *)
Lemma no_key_occurs (items : list (string * string)) (s : string) :
  forallb (λ item, negb (str_in item.1 s)) items = true →
  ∀ key driver, (key, driver) ∈ items → ¬ contains key s.
Proof.
  intros Hall key driver Hin. apply str_in_false.
  rewrite forallb_forall in Hall.
  apply list_elem_of_In, Hall, negb_true_iff in Hin. exact Hin.
Qed.

(** C9 (as amended).  The table is matched against the manufacturer string
    put in lower case.  The driver returned is the one of the first key, in
    the order of the table, that occurs in the lowered string; when no key
    occurs in it the driver is "ios". *)
Theorem C9_vendor_mapping_first_match (manufacturer : string) :
  (∀ pre key driver post,
     mapping = pre ++ (key, driver) :: post →
     contains key (lower manufacturer) →
     (∀ key' driver',
        (key', driver') ∈ pre → ¬ contains key' (lower manufacturer)) →
     _map_manufacturer_to_driver manufacturer = driver)
  ∧ ((∀ key driver,
        (key, driver) ∈ mapping → ¬ contains key (lower manufacturer)) →
     _map_manufacturer_to_driver manufacturer = "ios").
Proof.
  unfold _map_manufacturer_to_driver. split.
  - intros pre key driver post -> Hkey%str_in_spec Hpre.
    rewrite (first_match_first pre post key driver); [done..|].
    intros key' driver' Hin. apply str_in_false. eauto.
  - intros Hnone. rewrite first_match_none; [done|].
    intros key driver Hin. apply str_in_false. eauto.
Qed.

Lemma C9_vendor_mapping_witness :
  _map_manufacturer_to_driver "Juniper Networks" = "junos"
  ∧ _map_manufacturer_to_driver "Nokia" = "ios".
Proof.
  split.
  - apply (proj1 (C9_vendor_mapping_first_match "Juniper Networks")
             [("cisco", "ios")] "juniper" "junos"
             (drop 2 mapping) eq_refl).
    + by exists "", " networks".
    + apply (no_key_occurs [("cisco", "ios")]). reflexivity.
  - apply (proj2 (C9_vendor_mapping_first_match "Nokia")).
    apply no_key_occurs. reflexivity.
Defined.

(** C9 as stated fails: "JUNIPER" holds none of the keys of the table as
    they are written, and it is mapped to "junos", not to the default. *)
Lemma C9_uppercase_counterexample :
  ¬ ((∀ key driver, (key, driver) ∈ mapping → ¬ contains key "JUNIPER") →
     _map_manufacturer_to_driver "JUNIPER" = "ios").
Proof.
  intros Hclaim.
  assert (_map_manufacturer_to_driver "JUNIPER" = "junos") as Hcode
    by reflexivity.
  rewrite Hclaim in Hcode; [discriminate|].
  apply no_key_occurs. reflexivity.
Qed.

(** Lowering also changes which key comes first: "CISCO juniper" holds
    "juniper" and no key before it in the table, and it is mapped by the
    "cisco" row. *)
Example uppercase_changes_first_match :
  contains "juniper" "CISCO juniper"
  ∧ ¬ contains "cisco" "CISCO juniper"
  ∧ _map_manufacturer_to_driver "CISCO juniper" = "ios".
Proof.
  split; [by exists "CISCO ", ""|]. split; [|reflexivity].
  by apply str_in_false.
Qed.

(** On a manufacturer string that is already in lower case, which is what
    the two sync methods pass, the table is matched against the string
    itself. *)
Corollary vendor_mapping_lowercase (manufacturer : string) :
  lower manufacturer = manufacturer →
  (contains "cisco" manufacturer →
   _map_manufacturer_to_driver manufacturer = "ios")
  ∧ (contains "juniper" manufacturer → ¬ contains "cisco" manufacturer →
     _map_manufacturer_to_driver manufacturer = "junos")
  ∧ ((∀ key driver, (key, driver) ∈ mapping → ¬ contains key manufacturer) →
     _map_manufacturer_to_driver manufacturer = "ios").
Proof.
  intros Hlow. unfold _map_manufacturer_to_driver. rewrite Hlow.
  split; [|split].
  - intros Hcisco%str_in_spec.
    rewrite (first_match_first [] (drop 1 mapping) "cisco" "ios"); [done..|].
    intros key' driver' Hin. by apply elem_of_nil in Hin.
  - intros Hjuniper%str_in_spec Hcisco%str_in_false.
    rewrite (first_match_first [("cisco", "ios")] (drop 2 mapping)
               "juniper" "junos"); [done..|].
    intros key' driver' Hin. apply list_elem_of_singleton in Hin.
    by injection Hin as -> ->.
  - intros Hnone. rewrite first_match_none; [done|].
    intros key driver Hin. apply str_in_false. eauto.
Qed.

(** ** C3: the aggregates of the four encodings *)


Lemma count_status_le (s : string) (results : list ValidationResult) :
  (count_status s results ≤ length results)%nat.
Proof. apply length_filter. Qed.

(** The rate of the HTML report is the rate of the specification as a
    percentage. *)
Lemma html_rate_is_percentage (results : list ValidationResult) :
  (success_rate (length results) (count_status "error" results)
   == 100 * spec_success_rate results)%Q.
Proof.
  unfold success_rate, spec_success_rate.
  destruct (length results) as [|n] eqn:Hlen.
  - by rewrite bool_decide_eq_false_2 by lia.
  - rewrite bool_decide_eq_true_2 by lia. apply Qmult_comm.
Qed.

(** The rate of the HTML report lies between 0 and 100. *)
Lemma html_rate_bounds (results : list ValidationResult) :
  (0 <= success_rate (length results) (count_status "error" results) <= 100)%Q.
Proof.
  pose proof (count_status_le "error" results) as Hle.
  unfold success_rate. case_bool_decide as Hpos; [|done].
  set (t := Z.of_nat (length results)).
  set (e := Z.of_nat (count_status "error" results)).
  assert (0 < t)%Z as Ht by lia. assert (0 <= t - e <= t)%Z as He by lia.
  clearbody t e. clear Hle Hpos.
  assert (0 <= inject_Z (t - e) / inject_Z t <= 1)%Q as [Hlo Hhi].
  { assert (0 < inject_Z t)%Q by (change 0%Q with (inject_Z 0); by rewrite <- Zlt_Qlt).
    split.
    - apply Qle_shift_div_l; [done|]. rewrite Qmult_0_l.
      change 0%Q with (inject_Z 0). rewrite <- Zle_Qle. lia.
    - apply Qle_shift_div_r; [done|]. rewrite Qmult_1_l.
      rewrite <- Zle_Qle. lia. }
  split.
  - apply Qmult_le_0_compat; [done|]. done.
  - apply Qle_trans with (1 * 100)%Q; [by apply Qmult_le_compat_r|].
    unfold Qle. simpl. lia.
Qed.

(** C3 (as amended).  The HTML encoding shows the total, the error count,
    the drift count and the success rate, which is the percentage
    100 * (total - errors) / total and 0 for an empty batch.  The JSON
    metadata holds the three counts and no rate; the XLSX summary holds the
    three counts and the text "successes/total", written without a
    division; the CSV file holds no aggregate at all. *)
Theorem C3_aggregates_by_encoding
    (now_iso now_text : string) (results : list ValidationResult) :
  let total := length results in
  let drift := count_drift results in
  let errors := count_status "error" results in
  (∃ rate,
     aggregates (_generate_html_report results)
     = [VInt total; VInt errors; VInt drift; VRate rate]
     ∧ (rate == 100 * spec_success_rate results)%Q
     ∧ (0 <= rate <= 100)%Q)
  ∧ aggregates (_generate_html_report [])
    = [VInt 0; VInt 0; VInt 0; VRate 0]
  ∧ aggregates (_generate_json_report now_iso results)
    = [VStr now_iso; VInt total; VInt drift; VInt errors]
  ∧ aggregates (_generate_xlsx_report now_text results)
    = [VStr now_text; VInt total; VInt drift; VInt errors;
       VStr (fmt_nat (count_status "success" results) +:+ "/"
             +:+ fmt_nat total)]
  ∧ aggregates (_generate_csv_report results) = []
  ∧ Forall (λ report_format,
              ∃ r, generate_validation_report now_iso now_text results
                     report_format = Ok r)
           report_formats.
Proof.
  intros total drift errors. repeat split; try done.
  - exists (success_rate total errors).
    split; [done|]. split; [apply html_rate_is_percentage|apply html_rate_bounds].
  - unfold report_formats. repeat constructor; by eexists.
Qed.

(** C3 as stated fails: the JSON report of a batch of two results, one of
    them an error, does not hold the success rate among its aggregates (nor
    does the CSV report, which holds none). *)
Lemma C3_json_rate_counterexample :
  ¬ (∃ r, generate_validation_report "2024-05-01T12:00:00"
            "2024-05-01 12:00:00" c3_results "json" = Ok r
          ∧ surfaces_success_rate r c3_results).
Proof.
  intros (r & Hgen & q & Hin & _).
  unfold generate_validation_report in Hgen. simpl in Hgen.
  injection Hgen as <-. simpl in Hin.
  repeat (apply elem_of_cons in Hin as [Hin|Hin]; [discriminate Hin|]).
  by apply elem_of_nil in Hin.
Qed.

(** * Further properties of the code *)

(** ** config_validation.py: the shape of every result *)

(** Every comparison ends in one of three ways. *)
Lemma compare_cases (self : World) (device_name config_type : string) :
  (not_ (load_source_of_truth_config self device_name config_type) = true
   ∧ compare_configurations self device_name config_type
     = no_source_of_truth device_name)
  ∨ (∃ sot e,
       load_source_of_truth_config self device_name config_type = Some sot
       ∧ sot ≠ ""
       ∧ dict_get (get_device_config self device_name) config_type = PyNone
       ∧ compare_configurations self device_name config_type
         = comparison_error device_name e)
  ∨ (∃ live sot,
       load_source_of_truth_config self device_name config_type = Some sot
       ∧ sot ≠ ""
       ∧ dict_get (get_device_config self device_name) config_type = PyStr live
       ∧ compare_configurations self device_name config_type
         = compared self device_name live sot).
Proof.
  destruct (not_ (load_source_of_truth_config self device_name config_type))
    eqn:Hfalsy.
  { left. split; [done|]. by apply compare_falsy_baseline. }
  right.
  destruct (load_source_of_truth_config self device_name config_type)
    as [[|c sot]|] eqn:Hload; try done.
  destruct (dict_get (get_device_config self device_name) config_type)
    as [|live] eqn:Hlive.
  - left. eexists _, _. repeat split; [done|].
    unfold compare_configurations, compare_try. by rewrite Hload, Hlive.
  - right. exists live, (String c sot). repeat split; [done|].
    by apply compare_texts.
Qed.

(** A batch is made of comparisons, or is the one result of a failed run. *)
Lemma validate_results_from (self : World)
    (device_group config_type : string) (dry_run : bool) (r : ValidationResult) :
  r ∈ validate_configurations self device_group config_type dry_run →
  (∃ e, r = validation_error e)
  ∨ (∃ d c, r = compare_configurations self d c).
Proof.
  unfold validate_configurations.
  destruct (select_devices self device_group) as [devices|e].
  - rewrite validate_loop_bind. intros Hin. right.
    apply list_elem_of_bind in Hin as (d & Hin & _).
    apply list_elem_of_fmap in Hin as (c & -> & _). eauto.
  - intros Hin%list_elem_of_singleton. left. eauto.
Qed.

(** X1.  Every result of a validation run is a success or an error.  A
    success carries no message, the time of the comparison and the two line
    sets; an error never reports drift, carries a message, and has no line
    sets and no time. *)
Theorem validation_result_wellformed (self : World)
    (device_group config_type : string) (dry_run : bool) (r : ValidationResult) :
  r ∈ validate_configurations self device_group config_type dry_run →
  (status r = "success" ∧ message r = None ∧ timestamp r = Some (now self)
   ∧ is_Some (missing_lines r) ∧ is_Some (extra_lines r))
  ∨ (status r = "error" ∧ drift_detected r = false ∧ is_Some (message r)
     ∧ missing_lines r = None ∧ extra_lines r = None ∧ timestamp r = None).
Proof.
  intros [[e ->]|(d & c & ->)]%validate_results_from.
  - right. repeat split; by eauto.
  - destruct (compare_cases self d c)
      as [[_ ->]|[(sot & e & _ & _ & _ & ->)|(live & sot & _ & _ & _ & ->)]].
    + right. repeat split; by eauto.
    + right. repeat split; by eauto.
    + left. repeat split; by eauto.
Qed.

Lemma validation_result_wellformed_witness :
  let r := comparison_error "sw-01"
             "'NoneType' object has no attribute 'strip'" in
  (status r = "success" ∧ message r = None
   ∧ timestamp r = Some (now c6_world)
   ∧ is_Some (missing_lines r) ∧ is_Some (extra_lines r))
  ∨ (status r = "error" ∧ drift_detected r = false ∧ is_Some (message r)
     ∧ missing_lines r = None ∧ extra_lines r = None ∧ timestamp r = None).
Proof.
  apply (validation_result_wellformed c6_world "all" "running" true).
  apply (list_elem_of_lookup_2 _ 1). vm_compute. reflexivity.
Defined.

(** X2.  In a successful comparison drift is reported exactly when the
    issues list is not empty, and exactly when one of the two line sets is
    not empty; there are never more than two issues. *)
Theorem success_drift_iff_issues (self : World) (device_name config_type : string) :
  let r := compare_configurations self device_name config_type in
  status r = "success" →
  (drift_detected r = true ↔ issues r ≠ [])
  ∧ (drift_detected r = false
     ↔ missing_lines r = Some ∅ ∧ extra_lines r = Some ∅)
  ∧ (length (issues r) ≤ 2)%nat.
Proof.
  intros r. subst r.
  destruct (compare_cases self device_name config_type)
    as [[_ ->]|[(sot & e & _ & _ & _ & ->)|(live & sot & _ & _ & _ & ->)]];
    [done..|].
  intros _. unfold compared. cbn [drift_detected issues missing_lines extra_lines].
  set (m := _ ∖ _). set (x := _ ∖ _).
  assert (∀ a : gset string, bool_decide (0 < size a) = negb (bool_decide (a = ∅)))
    as Hsize.
  { intros a. destruct (decide (a = ∅)) as [->|Ha].
    - rewrite size_empty. rewrite bool_decide_eq_false_2 by lia.
      by rewrite bool_decide_eq_true_2.
    - rewrite (bool_decide_eq_false_2 (a = ∅)) by done.
      apply bool_decide_eq_true_2.
      assert (size a ≠ 0); [|lia].
      rewrite size_non_empty_iff. by intros ?%leibniz_equiv. }
  rewrite !Hsize.
  assert (∀ a : gset string, Some a = Some ∅ ↔ a = ∅) as Hsome
    by (intros a; split; [by intros [=]|by intros ->]).
  rewrite !Hsome.
  destruct (decide (m = ∅)) as [Hm|Hm], (decide (x = ∅)) as [Hx|Hx];
    rewrite ?(bool_decide_eq_true_2 _ Hm), ?(bool_decide_eq_true_2 _ Hx),
      ?(bool_decide_eq_false_2 _ Hm), ?(bool_decide_eq_false_2 _ Hx); simpl;
    (split; [|split; [|lia]]); split; try done; tauto.
Qed.

Lemma success_drift_iff_issues_witness :
  let r := compare_configurations c5_world "rtr-01" "running" in
  (drift_detected r = true ↔ issues r ≠ [])
  ∧ (drift_detected r = false
     ↔ missing_lines r = Some ∅ ∧ extra_lines r = Some ∅)
  ∧ (length (issues r) ≤ 2)%nat.
Proof.
  apply (success_drift_iff_issues c5_world "rtr-01" "running").
  vm_compute. reflexivity.
Defined.

(** X3.  The two line sets are a patch from the baseline to the device:
    no line is both missing and extra, every missing line is a baseline
    line, no extra line is one, and the baseline lines without the missing
    ones and with the extra ones are exactly the live lines. *)
Theorem diff_patches_baseline
    (self : World) (device_name config_type live sot : string) :
  dict_get (get_device_config self device_name) config_type = PyStr live →
  load_source_of_truth_config self device_name config_type = Some sot →
  sot ≠ "" →
  let r := compare_configurations self device_name config_type in
  ∃ m x : gset string,
    missing_lines r = Some m ∧ extra_lines r = Some x
    ∧ m ## x ∧ m ⊆ lines_of sot ∧ x ## lines_of sot
    ∧ (lines_of sot ∖ m) ∪ x = lines_of live.
Proof.
  intros Hlive Hsot Hne r. subst r.
  rewrite (compare_texts self device_name config_type live sot) by done.
  cbn [missing_lines extra_lines]. fold (lines_of sot) (lines_of live).
  generalize (lines_of sot) (lines_of live). intros S L.
  exists (S ∖ L), (L ∖ S). split; [done|]. split; [done|].
  split; [|split; [|split]].
  - intros l [_ Hl]%elem_of_difference [Hl' _]%elem_of_difference. done.
  - intros l [Hl _]%elem_of_difference. done.
  - intros l [_ Hl]%elem_of_difference Hl'. done.
  - apply set_eq. intros l.
    rewrite elem_of_union, !elem_of_difference.
    destruct (decide (l ∈ S)), (decide (l ∈ L)); tauto.
Qed.

Lemma diff_patches_baseline_witness :
  let r := compare_configurations c5_world "rtr-01" "running" in
  ∃ m x : gset string,
    missing_lines r = Some m ∧ extra_lines r = Some x
    ∧ m ## x ∧ m ⊆ lines_of (text ["line1"; "line2"; "line3"])
    ∧ x ## lines_of (text ["line1"; "line2"; "line3"])
    ∧ (lines_of (text ["line1"; "line2"; "line3"]) ∖ m) ∪ x
      = lines_of (text ["line2"; "line3"; "line4"]).
Proof.
  apply (diff_patches_baseline c5_world "rtr-01" "running");
    [vm_compute; reflexivity | vm_compute; reflexivity | discriminate].
Defined.

(** X4.  Taking the baseline for the live text and the live text for the
    baseline exchanges the missing and the extra lines and leaves the drift
    verdict as it is. *)
Theorem swap_exchanges_missing_and_extra
    (self1 self2 : World) (device_name config_type a b : string) :
  dict_get (get_device_config self1 device_name) config_type = PyStr a →
  load_source_of_truth_config self1 device_name config_type = Some b →
  dict_get (get_device_config self2 device_name) config_type = PyStr b →
  load_source_of_truth_config self2 device_name config_type = Some a →
  a ≠ "" → b ≠ "" →
  let r1 := compare_configurations self1 device_name config_type in
  let r2 := compare_configurations self2 device_name config_type in
  missing_lines r1 = extra_lines r2
  ∧ extra_lines r1 = missing_lines r2
  ∧ drift_detected r1 = drift_detected r2.
Proof.
  intros Hlive1 Hsot1 Hlive2 Hsot2 Ha Hb r1 r2. subst r1 r2.
  rewrite (compare_texts self1 device_name config_type a b) by done.
  rewrite (compare_texts self2 device_name config_type b a) by done.
  cbn [missing_lines extra_lines drift_detected].
  repeat split. apply orb_comm.
Qed.

Lemma swap_exchanges_witness :
  let r1 := compare_configurations c4_world "rtr-01" "running" in
  let r2 := compare_configurations c4_swapped_world "rtr-01" "running" in
  missing_lines r1 = extra_lines r2
  ∧ extra_lines r1 = missing_lines r2
  ∧ drift_detected r1 = drift_detected r2.
Proof.
  apply (swap_exchanges_missing_and_extra
           c4_world c4_swapped_world "rtr-01" "running" c4_live c4_sot);
    first [discriminate | vm_compute; reflexivity].
Defined.

(** X5.  [get_device_config] answers for running, startup and candidate
    only.  For any other config type the live text is taken to be empty,
    whatever the device holds, and a non-empty baseline is then compared
    with the empty text. *)
Theorem other_config_type_compares_empty
    (self : World) (device_name config_type sot : string) :
  config_type ∉ gateway_types →
  dict_get (get_device_config self device_name) config_type = PyStr ""
  ∧ (load_source_of_truth_config self device_name config_type = Some sot →
     sot ≠ "" →
     compare_configurations self device_name config_type
     = compared self device_name "" sot).
Proof.
  intros Hother.
  assert (dict_get (get_device_config self device_name) config_type = PyStr "")
    as Hlive.
  { unfold gateway_types in Hother.
    apply not_elem_of_cons in Hother as [Hr Hother].
    apply not_elem_of_cons in Hother as [Hs Hother].
    apply not_elem_of_cons in Hother as [Hc _].
    unfold get_device_config, dict_get at 1.
    destruct (inventory_hosts self); [|done].
    case_bool_decide; [|done].
    destruct (napalm_get self device_name) as [| |r]; [done..|].
    destruct (r !! "config"); [|done].
    by rewrite !lookup_insert_ne, lookup_empty by done. }
  split; [done|]. intros Hsot Hne. by apply compare_texts.
Qed.

Lemma other_config_type_witness :
  dict_get (get_device_config c5_world "rtr-01") "intended" = PyStr ""
  ∧ (load_source_of_truth_config c5_world "rtr-01" "intended"
     = Some "hostname rtr-01" →
     "hostname rtr-01" ≠ "" →
     compare_configurations c5_world "rtr-01" "intended"
     = compared c5_world "rtr-01" "" "hostname rtr-01").
Proof.
  apply (other_config_type_compares_empty c5_world "rtr-01" "intended").
  unfold gateway_types. rewrite !not_elem_of_cons. repeat split; try done.
  apply not_elem_of_nil.
Defined.

(** ** config_validation.py: the baseline files *)

Lemma append_cons (x : ascii) (a s : string) :
  String x a +:+ s = String x (a +:+ s).
Proof. reflexivity. Qed.

Lemma append_nil_r (a : string) : a +:+ "" = a.
Proof. induction a as [|x a IH]; [done|]. by rewrite append_cons, IH. Qed.

Lemma length_append (a b : string) :
  String.length (a +:+ b) = String.length a + String.length b.
Proof.
  induction a as [|x a IH]; [done|]. rewrite append_cons. simpl. by rewrite IH.
Qed.

(** Two texts that end in [s] and in [t]: the longer ending ends in the
    shorter one. *)
Lemma append_eq_suffix (a b s t : string) :
  a +:+ s = b +:+ t →
  (String.length s ≤ String.length t)%nat →
  ∃ u, t = u +:+ s ∧ a = b +:+ u.
Proof.
  revert b. induction a as [|x a IH]; intros b Heq Hlen.
  - change ("" +:+ s) with s in Heq. subst s. rewrite length_append in Hlen.
    destruct b; simpl in Hlen; [|lia]. by exists "".
  - destruct b as [|y b].
    + exists (String x a). change ("" +:+ t) with t in Heq. by subst t.
    + rewrite !append_cons in Heq. injection Heq as -> Heq.
      destruct (IH b Heq Hlen) as (u & -> & ->). by exists u.
Qed.

Lemma endswith_append (u s : string) : endswith s (u +:+ s) = true.
Proof.
  induction u as [|x u IH].
  - change ("" +:+ s) with s. destruct s as [|c s]; [done|].
    cbn [endswith]. by rewrite bool_decide_eq_true_2.
  - rewrite append_cons. cbn [endswith]. rewrite IH. apply orb_true_r.
Qed.

(** Two names with different endings of which neither ends in the other
    are different names. *)
Lemma append_endings_differ (a b s t : string) :
  endswith s t = false → endswith t s = false → a +:+ s ≠ b +:+ t.
Proof.
  intros Hst Hts Heq.
  destruct (decide (String.length s ≤ String.length t)%nat) as [Hlen|Hlen].
  - destruct (append_eq_suffix a b s t Heq Hlen) as (u & -> & _).
    by rewrite endswith_append in Hst.
  - symmetry in Heq.
    destruct (append_eq_suffix b a t s Heq ltac:(lia)) as (u & -> & _).
    by rewrite endswith_append in Hts.
Qed.

(** Two names with the same ending have the same beginning. *)
Lemma append_same_ending (a b s : string) : a +:+ s = b +:+ s → a = b.
Proof.
  intros Heq. destruct (append_eq_suffix a b s s Heq ltac:(done)) as (u & Hu & ->).
  assert (String.length u = 0) as Hlen.
  { apply (f_equal String.length) in Hu. rewrite length_append in Hu. lia. }
  destruct u; [|done]. by rewrite append_nil_r.
Qed.

Lemma config_file_inj (d1 c1 d2 c2 : string) :
  c1 ∈ gateway_types → c2 ∈ gateway_types →
  config_file d1 c1 = config_file d2 c2 →
  d1 = d2 ∧ c1 = c2.
Proof.
  unfold gateway_types, config_file. rewrite !elem_of_cons, !elem_of_nil.
  intros [->|[->|[->|[]]]] [->|[->|[->|[]]]] Heq; simpl in Heq;
    first [ by apply append_same_ending in Heq
          | by apply append_endings_differ in Heq ].
Qed.

(** A character occurs in [a +:+ b] when it occurs in [a] or in [b]. *)
Lemma str_in_char_append (k : ascii) (a b : string) :
  str_in (String k "") (a +:+ b)
  = str_in (String k "") a || str_in (String k "") b.
Proof.
  induction a as [|x a IH]; [done|].
  rewrite append_cons. cbn [str_in startswith]. rewrite IH.
  by rewrite orb_assoc.
Qed.

(** The baseline file of a device whose name holds no slash is named
    without a slash. *)
Lemma config_file_plain (d c : string) :
  plain_name d = true → c ∈ gateway_types → plain_name (config_file d c) = true.
Proof.
  unfold plain_name, config_file, gateway_types.
  rewrite !elem_of_cons, !elem_of_nil, !negb_true_iff.
  intros Hd [->|[->|[->|[]]]]; by rewrite str_in_char_append, Hd.
Qed.

(** X6.  For device names without a slash and the three config types of a
    device gateway, the name of the baseline file holds no slash, so that
    it is the name of a file of [config_dir] itself, and it tells the device
    and the config type: two different (device, config type) pairs never
    have the same baseline file name. *)
Theorem config_file_injective (d1 c1 d2 c2 : string) :
  plain_name d1 = true → plain_name d2 = true →
  c1 ∈ gateway_types → c2 ∈ gateway_types →
  plain_name (config_file d1 c1) = true
  ∧ plain_name (config_file d2 c2) = true
  ∧ (config_file d1 c1 = config_file d2 c2 → d1 = d2 ∧ c1 = c2).
Proof.
  intros Hd1 Hd2 Hc1 Hc2.
  split; [by apply config_file_plain|]. split; [by apply config_file_plain|].
  by apply config_file_inj.
Qed.

Lemma config_file_injective_witness :
  plain_name (config_file "rtr-01" "running") = true
  ∧ plain_name (config_file "sw-01" "startup") = true
  ∧ (config_file "rtr-01" "running" = config_file "sw-01" "startup" →
     "rtr-01" = "sw-01" ∧ "running" = "startup").
Proof.
  apply (config_file_injective "rtr-01" "running" "sw-01" "startup");
    [reflexivity | reflexivity
    | unfold gateway_types; rewrite !elem_of_cons; tauto.. ].
Defined.

(** Outside the three config types two pairs can have the same file name:
    the startup baseline of a device named a_running is the file of device
    a for a config type running_startup. *)
Example config_file_collision :
  config_file "a_running" "startup" = config_file "a" "running_startup".
Proof. reflexivity. Qed.

(** With a slash in a device name two names can differ and the files be
    one: these two names are different strings, and pathlib drops the
    leading [./] of the first. *)
Example config_file_slash :
  plain_name "./rtr-01" = false
  ∧ config_file "./rtr-01" "running" = "./" +:+ config_file "rtr-01" "running".
Proof. by split. Qed.

Lemma append_assoc (a b c : string) : (a +:+ b) +:+ c = a +:+ (b +:+ c).
Proof.
  induction a as [|x a IH]; [done|]. by rewrite !append_cons, IH.
Qed.

(** A baseline file is never a metadata file. *)
Lemma config_file_not_metadata (d c d' c' : string) :
  config_file d c ≠ metadata_file d' c'.
Proof.
  unfold config_file, metadata_file.
  rewrite <- !(append_assoc _ "_"), <- !(append_assoc _ c ".txt"),
    <- !(append_assoc _ c' "_metadata.json").
  by apply append_endings_differ.
Qed.

(** A text without a carriage return is read back as it was written. *)
Lemma universal_newlines_id (s : string) :
  no_carriage_return s = true → universal_newlines s = s.
Proof.
  unfold no_carriage_return. rewrite negb_true_iff.
  induction s as [|a s IH]; [done|].
  cbn [str_in startswith universal_newlines].
  intros [Ha Hs]%orb_false_iff. rewrite andb_true_r in Ha.
  apply bool_decide_eq_false in Ha.
  rewrite bool_decide_eq_false_2 by (intros ->; by apply Ha).
  by rewrite IH.
Qed.

(** The two writes of a save, case by case. *)
Lemma save_cases (self : World) (fs : FileSystem)
    (device_name config config_type : string) :
  let text_file := config_file device_name config_type in
  let meta_file := metadata_file device_name config_type in
  let metadata :=
    json_dump [ ("device", device_name); ("config_type", config_type);
                ("timestamp", now self); ("source", "manual") ] in
  let dir1 := <[text_file := stored fs text_file config]> (config_dir self) in
  save_source_of_truth_config self fs device_name config config_type
  = match write_outcome_of fs text_file with
    | OpenFails => (false, self)
    | WriteFails kept =>
        (false, with_config_dir self
                  (<[text_file := stored fs text_file kept]> (config_dir self)))
    | Written =>
        match write_outcome_of fs meta_file with
        | OpenFails => (false, with_config_dir self dir1)
        | WriteFails kept =>
            (false, with_config_dir self
                      (<[meta_file := stored fs meta_file kept]> dir1))
        | Written =>
            (true, with_config_dir self
                     (<[meta_file := stored fs meta_file metadata]> dir1))
        end
    end.
Proof.
  intros text_file meta_file metadata dir1.
  unfold save_source_of_truth_config, write_file.
  fold text_file meta_file.
  destruct (write_outcome_of fs text_file); [by destruct self|done|].
  by destruct (write_outcome_of fs meta_file).
Qed.

(** A save never touches the device gateway or the clock. *)
Lemma save_keeps_gateway (self : World) (fs : FileSystem)
    (device_name config config_type : string) :
  let w' := (save_source_of_truth_config self fs device_name config
               config_type).2 in
  (∀ d', get_device_config w' d' = get_device_config self d')
  ∧ now w' = now self.
Proof.
  rewrite save_cases.
  destruct (write_outcome_of fs (config_file _ _)); [done..|].
  by destruct (write_outcome_of fs (metadata_file _ _)).
Qed.

(** The only entries of [config_dir] a save can change are those of its
    text file and of its metadata file. *)
Lemma save_keeps_other_files (self : World) (fs : FileSystem)
    (device_name config config_type name : string) :
  name ≠ config_file device_name config_type →
  name ≠ metadata_file device_name config_type →
  config_dir (save_source_of_truth_config self fs device_name config
                config_type).2 !! name
  = config_dir self !! name.
Proof.
  intros Htext Hmeta. rewrite save_cases.
  destruct (write_outcome_of fs (config_file _ _)); simpl;
    [done|by rewrite lookup_insert_ne|].
  destruct (write_outcome_of fs (metadata_file _ _)); simpl;
    by rewrite ?lookup_insert_ne.
Qed.

(** X7.  For a device name without a slash and a config type among
    running, startup and candidate, a save that returns [True] can be read
    back when the text file may be read: the baseline of the device and
    config type is the saved text with every CR LF and every lone CR turned
    into LF, which is the saved text itself when it holds no CR.  The
    baseline of every other device without a slash in its name or other
    config type among the three is what it was, and the device gateway
    answers as before.  [config_dir] is a directory in which every name is
    a file of its own. *)
Theorem save_then_load (self w' : World) (fs : FileSystem)
    (device_name config config_type : string) :
  save_source_of_truth_config self fs device_name config config_type
  = (true, w') →
  readable fs (config_file device_name config_type) = true →
  plain_name device_name = true →
  config_type ∈ gateway_types →
  load_source_of_truth_config w' device_name config_type
  = Some (universal_newlines config)
  ∧ (no_carriage_return config = true →
     load_source_of_truth_config w' device_name config_type = Some config)
  ∧ (∀ d' c',
       plain_name d' = true → c' ∈ gateway_types →
       (d', c') ≠ (device_name, config_type) →
       load_source_of_truth_config w' d' c'
       = load_source_of_truth_config self d' c')
  ∧ (∀ d', get_device_config w' d' = get_device_config self d').
Proof.
  intros Hsave Hread _ Hc.
  pose proof (save_keeps_gateway self fs device_name config config_type)
    as [Hgw _].
  pose proof (save_keeps_other_files self fs device_name config config_type)
    as Hother.
  rewrite Hsave in Hgw, Hother. simpl in Hgw, Hother.
  assert (load_source_of_truth_config w' device_name config_type
          = Some (universal_newlines config)) as Hload.
  { rewrite save_cases in Hsave.
    destruct (write_outcome_of fs (config_file _ _)); [done..|].
    destruct (write_outcome_of fs (metadata_file _ _)); [done..|].
    injection Hsave as <-. unfold load_source_of_truth_config. simpl.
    rewrite lookup_insert_ne
      by (intros Heq; symmetry in Heq; by apply config_file_not_metadata in Heq).
    rewrite lookup_insert_eq. unfold stored. by rewrite Hread. }
  split; [done|]. split; [|split; [|done]].
  - intros Hcr. by rewrite Hload, universal_newlines_id.
  - intros d' c' _ Hc' Hne. unfold load_source_of_truth_config.
    rewrite Hother; [done| |apply config_file_not_metadata].
    intros Heq. apply config_file_inj in Heq as [-> ->]; done.
Qed.

Lemma save_then_load_witness :
  let w' := (save_source_of_truth_config c2_world sound_fs "rtr-01"
               "hostname rtr-01" "running").2 in
  load_source_of_truth_config w' "rtr-01" "running"
  = Some (universal_newlines "hostname rtr-01")
  ∧ (no_carriage_return "hostname rtr-01" = true →
     load_source_of_truth_config w' "rtr-01" "running" = Some "hostname rtr-01")
  ∧ (∀ d' c',
       plain_name d' = true → c' ∈ gateway_types →
       (d', c') ≠ ("rtr-01", "running") →
       load_source_of_truth_config w' d' c'
       = load_source_of_truth_config c2_world d' c')
  ∧ (∀ d', get_device_config w' d' = get_device_config c2_world d').
Proof.
  apply (save_then_load c2_world _ sound_fs "rtr-01" "hostname rtr-01"
           "running");
    [reflexivity | reflexivity | reflexivity
    | unfold gateway_types; rewrite !elem_of_cons; tauto ].
Defined.

(** A configuration whose lines end in CR LF is not read back as it was
    saved: the carriage returns are gone. *)
Example save_then_load_crlf :
  let w' := (save_source_of_truth_config crlf_world sound_fs "rtr-01"
               crlf_config "running").2 in
  load_source_of_truth_config w' "rtr-01" "running"
  = Some (text ["hostname rtr-01"; "end"])
  ∧ crlf_config ≠ text ["hostname rtr-01"; "end"].
Proof. evaluate. Qed.

(** X8.  A save returns [True] exactly when the text file and the metadata
    file are both written in full, and [False] in three other ways.  When
    the text file cannot be opened nothing is changed.  When the text file
    is opened, which empties it, and its write fails, the old baseline is
    lost: what is read back, when the file may be read, is the part that
    reached the file, and the metadata file is as it was.  When the text
    file is written and the metadata file is not, the baseline has been
    replaced all the same; the metadata file is as it was when it could not
    be opened. *)
Theorem save_failure_modes (self : World) (fs : FileSystem)
    (device_name config config_type : string) :
  let text_file := config_file device_name config_type in
  let meta_file := metadata_file device_name config_type in
  let r := save_source_of_truth_config self fs device_name config
             config_type in
  (r.1 = true ↔ write_outcome_of fs text_file = Written
                ∧ write_outcome_of fs meta_file = Written)
  ∧ (write_outcome_of fs text_file = OpenFails → r = (false, self))
  ∧ (∀ kept,
       write_outcome_of fs text_file = WriteFails kept →
       r.1 = false
       ∧ (readable fs text_file = true →
          load_source_of_truth_config r.2 device_name config_type
          = Some (universal_newlines kept))
       ∧ config_dir r.2 !! meta_file = config_dir self !! meta_file)
  ∧ (write_outcome_of fs text_file = Written →
     write_outcome_of fs meta_file ≠ Written →
     r.1 = false
     ∧ (readable fs text_file = true →
        load_source_of_truth_config r.2 device_name config_type
        = Some (universal_newlines config))
     ∧ (write_outcome_of fs meta_file = OpenFails →
        config_dir r.2 !! meta_file = config_dir self !! meta_file)).
Proof.
  intros text_file meta_file r.
  assert (meta_file ≠ text_file) as Hne.
  { intros Heq. symmetry in Heq. by apply config_file_not_metadata in Heq. }
  subst r. rewrite save_cases. fold text_file meta_file.
  unfold load_source_of_truth_config. fold text_file.
  destruct (write_outcome_of fs text_file) as [|kept|] eqn:Htext.
  - split; [split; [done|by intros [? _]]|]. split; [done|].
    split; [done|]. intros ?; done.
  - split; [split; [done|by intros [? _]]|]. split; [done|].
    split; [|intros ?; done].
    intros kept' [= <-]. split; [done|]. simpl. split.
    + intros Hread. rewrite lookup_insert_eq. unfold stored.
      by rewrite Hread.
    + by rewrite lookup_insert_ne.
  - destruct (write_outcome_of fs meta_file) as [|kept|] eqn:Hmeta.
    + split; [split; [done|by intros [_ ?]]|]. split; [done|].
      split; [done|]. intros _ _. split; [done|]. simpl. split.
      * intros Hread. rewrite lookup_insert_eq. unfold stored.
        by rewrite Hread.
      * intros _. by rewrite lookup_insert_ne.
    + split; [split; [done|by intros [_ ?]]|]. split; [done|].
      split; [done|]. intros _ _. split; [done|]. simpl. split; [|done].
      intros Hread. rewrite lookup_insert_ne by done.
      rewrite lookup_insert_eq. unfold stored. by rewrite Hread.
    + split; [done|]. split; [done|]. split; [done|].
      intros _ Hw. by destruct Hw.
Qed.

Lemma save_failure_modes_witness :
  let r := save_source_of_truth_config c5_world text_only_fs "rtr-01"
             "hostname rtr-01" "running" in
  r.1 = false
  ∧ load_source_of_truth_config r.2 "rtr-01" "running"
    = Some "hostname rtr-01"
  ∧ config_dir r.2 !! metadata_file "rtr-01" "running"
    = config_dir c5_world !! metadata_file "rtr-01" "running".
Proof.
  intros r.
  destruct (proj2 (proj2 (proj2
              (save_failure_modes c5_world text_only_fs "rtr-01"
                 "hostname rtr-01" "running"))))
    as (Hflag & Hload & Hmeta); [reflexivity | discriminate |].
  split; [exact Hflag|].
  split; [exact (Hload eq_refl) | exact (Hmeta eq_refl)].
Defined.

(** A save that fails in its write after the open has emptied the file:
    [False] is returned and the baseline that was there is gone. *)
Example save_fails_after_truncation :
  let r := save_source_of_truth_config c5_world full_fs "rtr-01"
             "hostname rtr-01" "running" in
  r.1 = false
  ∧ load_source_of_truth_config c5_world "rtr-01" "running"
    = Some (text ["line1"; "line2"; "line3"])
  ∧ load_source_of_truth_config r.2 "rtr-01" "running" = Some "".
Proof. evaluate. Qed.

(** ** scripts/validate_configs.py *)

(** X9.  When the device hands out a text without a carriage return for
    the config type, and hands out the same text when asked again, and the
    baseline file may be read, a save of the live configuration that returns
    [True] followed by a comparison shows no drift: the result is a success
    with no issue and two empty line sets. *)
Theorem save_then_compare_no_drift (self w' : World) (fs : FileSystem)
    (device_name config_type live : string) :
  dict_get (get_device_config self device_name) config_type = PyStr live →
  no_carriage_return live = true →
  readable fs (config_file device_name config_type) = true →
  save_source_of_truth self fs device_name config_type = (true, w') →
  compare_configurations w' device_name config_type = no_drift self device_name.
Proof.
  unfold save_source_of_truth. intros Hlive Hcr Hread Hsave.
  rewrite Hlive in Hsave. destruct live as [|c live]; [done|].
  pose proof (save_keeps_gateway self fs device_name (String c live)
                config_type) as [Hgw Hnow].
  rewrite Hsave in Hgw, Hnow. simpl in Hgw, Hnow.
  assert (load_source_of_truth_config w' device_name config_type
          = Some (String c live)) as Hload.
  { rewrite save_cases in Hsave.
    destruct (write_outcome_of fs (config_file _ _)); [done..|].
    destruct (write_outcome_of fs (metadata_file _ _)); [done..|].
    injection Hsave as <-. unfold load_source_of_truth_config. simpl.
    rewrite lookup_insert_ne
      by (intros Heq; symmetry in Heq; by apply config_file_not_metadata in Heq).
    rewrite lookup_insert_eq. unfold stored.
    by rewrite Hread, universal_newlines_id. }
  rewrite (compare_texts w' device_name config_type (String c live)
             (String c live)); [|by rewrite Hgw|done..].
  unfold no_drift. rewrite difference_diag_L, size_empty, Hnow.
  rewrite (bool_decide_eq_true_2 (∅ =@{gset string} ∅)) by done.
  by rewrite (bool_decide_eq_false_2 (0 < 0)) by lia.
Qed.

Lemma save_then_compare_witness :
  compare_configurations
    (save_source_of_truth c2_world sound_fs "rtr-01" "running").2
    "rtr-01" "running"
  = no_drift c2_world "rtr-01".
Proof.
  apply (save_then_compare_no_drift c2_world _ sound_fs "rtr-01" "running"
           "hostname rtr-01");
    reflexivity.
Defined.

(** With carriage returns the comparison after the save does report drift:
    the live lines end in a carriage return that the lines read back from
    the baseline file have lost. *)
Example save_then_compare_crlf :
  let saved := save_source_of_truth crlf_world sound_fs "rtr-01" "running" in
  let r := compare_configurations saved.2 "rtr-01" "running" in
  saved.1 = true
  ∧ status r = "success"
  ∧ drift_detected r = true
  ∧ missing_lines r = Some {[ "hostname rtr-01" ]}
  ∧ extra_lines r = Some {[ "hostname rtr-01" +:+ String carriage_return "" ]}.
Proof. evaluate. Qed.

(** X10.  The script never saves what it did not get: when the gateway run
    failed, or the device has no text for the config type, it returns
    [False] and writes nothing. *)
Theorem save_refuses_empty_fetch (self : World) (fs : FileSystem)
    (device_name config_type : string) :
  (∃ e, napalm_get self device_name = RunFailed e)
  ∨ dict_get (get_device_config self device_name) config_type = PyNone
  ∨ dict_get (get_device_config self device_name) config_type = PyStr "" →
  save_source_of_truth self fs device_name config_type = (false, self).
Proof.
  unfold save_source_of_truth.
  intros [[e Hrun]|[Hlive|Hlive]].
  - by rewrite (fetch_failed_live_empty self device_name config_type e).
  - by rewrite Hlive.
  - by rewrite Hlive.
Qed.

Lemma save_refuses_empty_fetch_witness :
  save_source_of_truth c1_world sound_fs "rtr-01" "running"
  = (false, c1_world).
Proof.
  apply (save_refuses_empty_fetch c1_world sound_fs "rtr-01" "running").
  left. by exists "Connection timed out".
Defined.

(** ** report_generator.py *)

(** X11.  A report is generated for the four formats "json", "csv", "xlsx"
    and "html", written exactly so, and comes out in the encoding that was
    asked for; any other format string, also one that differs by case only,
    raises "Unsupported report format". *)
Theorem report_format_dispatch (now_iso now_text : string)
    (results : list ValidationResult) (report_format : string) :
  (report_format ∈ report_formats →
   ∃ r, generate_validation_report now_iso now_text results report_format
        = Ok r
        ∧ report_kind r = report_format)
  ∧ (report_format ∉ report_formats →
     generate_validation_report now_iso now_text results report_format
     = Raise ("Unsupported report format: " +:+ report_format)).
Proof.
  unfold report_formats, generate_validation_report.
  rewrite !not_elem_of_cons, !elem_of_cons, elem_of_nil. split.
  - intros [->|[->|[->|[->|[]]]]]; by eexists.
  - intros (Hj & Hc & Hx & Hh & _).
    by rewrite !bool_decide_eq_false_2 by done.
Qed.

Lemma report_format_dispatch_witness :
  (∃ r, generate_validation_report "2024-05-01T12:00:00" "2024-05-01 12:00:00"
          c3_results "html" = Ok r
        ∧ report_kind r = "html")
  ∧ generate_validation_report "2024-05-01T12:00:00" "2024-05-01 12:00:00"
      c3_results "HTML"
    = Raise "Unsupported report format: HTML".
Proof.
  split.
  - apply (proj1 (report_format_dispatch "2024-05-01T12:00:00"
                    "2024-05-01 12:00:00" c3_results "html")).
    unfold report_formats. rewrite !elem_of_cons. tauto.
  - apply (proj2 (report_format_dispatch "2024-05-01T12:00:00"
                    "2024-05-01 12:00:00" c3_results "HTML")).
    unfold report_formats. rewrite !not_elem_of_cons. repeat split; try done.
    apply not_elem_of_nil.
Defined.

(** Every result of a validation run is a success or an error without
    drift. *)
Lemma validate_success_or_error (self : World)
    (device_group config_type : string) (dry_run : bool) :
  Forall success_or_error
    (validate_configurations self device_group config_type dry_run).
Proof.
  apply Forall_forall. intros r [[e ->]|(d & c & ->)]%validate_results_from.
  - by right.
  - destruct (compare_cases self d c)
      as [[_ ->]|[(sot & e & _ & _ & _ & ->)|(live & sot & _ & _ & _ & ->)]];
      [by right|by right|by left].
Qed.

(** In a list of successes and errors without drift the three counts fit
    into the total. *)
Lemma counts_fit (results : list ValidationResult) :
  Forall success_or_error results →
  count_status "success" results + count_status "error" results
  = length results
  ∧ (count_drift results + count_status "error" results ≤ length results)%nat.
Proof.
  unfold count_status, count_drift.
  induction 1 as [|r results Hr _ [IHs IHd]]; [done|].
  rewrite !filter_cons. simpl.
  destruct Hr as [Hs|[He Hd]].
  - rewrite (decide_True _ _ Hs).
    rewrite (decide_False (P := status r = "error")) by (by rewrite Hs).
    destruct (decide (drift_detected r = true)); simpl; lia.
  - rewrite (decide_True _ _ He).
    rewrite (decide_False (P := status r = "success")) by (by rewrite He).
    rewrite (decide_False (P := drift_detected r = true)) by (by rewrite Hd).
    simpl. lia.
Qed.

(** X12.  On the results of a validation run the counts of a report add
    up: every result is counted either as a success or as an error, and no
    result is counted both as drifted and as an error.  So the
    "successes/total" of the XLSX summary has total minus errors as its
    numerator. *)
Theorem report_counts_partition (self : World)
    (device_group config_type : string) (dry_run : bool) :
  let results := validate_configurations self device_group config_type dry_run in
  count_status "success" results + count_status "error" results
  = length results
  ∧ (count_drift results + count_status "error" results ≤ length results)%nat.
Proof. intros results. apply counts_fit, validate_success_or_error. Qed.

(** Results that do not come from a validation run need not add up: a
    result with another status is neither a success nor an error. *)
Example report_counts_other_status :
  let results := [ {| device := "rtr-01"; status := "unknown";
                      message := None; drift_detected := true; issues := [];
                      missing_lines := None; extra_lines := None;
                      timestamp := None |} ] in
  count_status "success" results + count_status "error" results = 0
  ∧ length results = 1.
Proof. by vm_compute. Qed.

(** X13.  The success-rate box of the HTML report is shown as "success"
    when the batch is not empty and at most one result in ten is an error,
    and as "warning" otherwise; an empty batch is shown as "warning". *)
Theorem html_rate_class (results : list ValidationResult) :
  let total := length results in
  let errors := count_status "error" results in
  ∃ class rate,
    html_summary (_generate_html_report results) !! 3
    = Some (class, "Success Rate", VRate rate)
    ∧ (class = "success" ↔ (0 < total ∧ 10 * errors ≤ total)%nat)
    ∧ (class = "warning" ↔ ¬ (0 < total ∧ 10 * errors ≤ total)%nat).
Proof.
  intros total errors. eexists _, _. split; [reflexivity|].
  fold total errors.
  pose proof (count_status_le "error" results) as Hle. fold total errors in Hle.
  assert (Qle_bool 90 (success_rate total errors) = true
          ↔ (0 < total ∧ 10 * errors ≤ total)%nat) as Hrate.
  { rewrite Qle_bool_iff. unfold success_rate. case_bool_decide as Hpos.
    - destruct total as [|n]; [lia|].
      unfold Qle, Qdiv, Qmult, Qinv, inject_Z. simpl Qnum. simpl Qden.
      rewrite Znat.Nat2Z.inj_succ. unfold Z.succ.
      destruct (Z.of_nat n + 1)%Z as [|p|p] eqn:Hp; [lia| |lia].
      simpl. split; intros H; [split; [lia|]|]; nia.
    - split; [|lia]. unfold Qle. simpl. lia. }
  destruct (Qle_bool 90 (success_rate total errors)).
  - split; split; try done; intros; tauto.
  - split; split; try done.
    + intros H. by apply Hrate in H.
    + intros _ H. by apply Hrate in H.
Qed.

(** X14.  [get_report] looks for the JSON file first and then for the CSV,
    the XLSX and the HTML file, in that order, and answers with the first
    one that exists.  A JSON file that is there decides alone: when it does
    not parse the call raises, whatever else exists.  An XLSX file is never
    read, its content is the text "Binary file".  When none of the four
    files exists the call raises "Report ... not found". *)
Theorem get_report_precedence {J : Type} (json_load : string → pyresult J)
    (reports_dir : gmap string (pyresult string)) (report_id : string) :
  let file ext := reports_dir !! (report_id +:+ "." +:+ ext) in
  let found ext content :=
    Ok {| info_id := report_id;
          info_filename := path_name (report_id +:+ "." +:+ ext);
          info_format := ext;
          info_content := content |} in
  let answer := get_report json_load reports_dir report_id in
  (∀ text doc, file "json" = Some (Ok text) → json_load text = Ok doc →
     answer = found "json" (JsonContent doc))
  ∧ (∀ text e, file "json" = Some (Ok text) → json_load text = Raise e →
       answer = Raise e)
  ∧ (∀ text, file "json" = None → file "csv" = Some (Ok text) →
       answer = found "csv" (TextContent text))
  ∧ (∀ f, file "json" = None → file "csv" = None → file "xlsx" = Some f →
       answer = found "xlsx" (TextContent "Binary file"))
  ∧ (∀ text, file "json" = None → file "csv" = None → file "xlsx" = None →
       file "html" = Some (Ok text) →
       answer = found "html" (TextContent text))
  ∧ (file "json" = None → file "csv" = None → file "xlsx" = None →
     file "html" = None →
     answer = Raise ("Report " +:+ report_id +:+ " not found")).
Proof.
  intros file found answer. subst file found answer. unfold get_report. simpl.
  change (report_id +:+ "." +:+ "json") with (report_id +:+ ".json").
  change (report_id +:+ "." +:+ "csv") with (report_id +:+ ".csv").
  change (report_id +:+ "." +:+ "xlsx") with (report_id +:+ ".xlsx").
  change (report_id +:+ "." +:+ "html") with (report_id +:+ ".html").
  repeat split.
  - intros text doc -> Hload. simpl. by rewrite Hload.
  - intros text e -> Hload. simpl. by rewrite Hload.
  - by intros text -> ->.
  - by intros f -> -> ->.
  - by intros text -> -> -> ->.
  - by intros -> -> -> ->.
Qed.

Lemma get_report_precedence_witness :
  get_report sample_json_load sample_reports "validation_report_1"
  = Ok {| info_id := "validation_report_1";
          info_filename := "validation_report_1.xlsx";
          info_format := "xlsx";
          info_content := TextContent "Binary file" |}.
Proof.
  apply (proj1 (proj2 (proj2 (proj2
           (get_report_precedence sample_json_load sample_reports
              "validation_report_1")))) (Ok "PK"));
    vm_compute; reflexivity.
Defined.

(** ** scripts/validate_configs.py: the command line run *)




(** ** inventory_manager.py: the inventory files *)

Lemma dict_lookup_set_eq {V : Type} (k : string) (v : V) (d : dict V) :
  dict_lookup k (dict_set k v d) = Some v.
Proof.
  induction d as [|[k' v'] d IH]; cbn [dict_set dict_lookup].
  - by rewrite decide_True.
  - destruct (decide (k' = k)) as [->|Hne]; cbn [dict_lookup].
    + by rewrite decide_True.
    + by rewrite decide_False.
Qed.

Lemma dict_lookup_set_ne {V : Type} (k k' : string) (v : V) (d : dict V) :
  k ≠ k' → dict_lookup k' (dict_set k v d) = dict_lookup k' d.
Proof.
  intros Hne. induction d as [|[k0 v0] d IH]; cbn [dict_set dict_lookup].
  - by rewrite decide_False.
  - destruct (decide (k0 = k)) as [->|Hne0]; cbn [dict_lookup].
    + by rewrite !decide_False.
    + destruct (decide (k0 = k')); [done|]. apply IH.
Qed.

(** Setting a key keeps the order of the keys, with a new key at the
    end. *)
Lemma dict_keys_set {V : Type} (k : string) (v : V) (d : dict V) :
  dict_keys (dict_set k v d)
  = if bool_decide (k ∈ dict_keys d) then dict_keys d else dict_keys d ++ [k].
Proof.
  unfold dict_keys. induction d as [|[k' v'] d IH]; cbn [dict_set fmap list_fmap].
  - by rewrite bool_decide_eq_false_2 by apply not_elem_of_nil.
  - destruct (decide (k' = k)) as [->|Hne]; cbn [fmap list_fmap fst].
    + by rewrite bool_decide_eq_true_2 by left.
    + fold (@fmap list _ _ _ (@fst string V) (dict_set k v d)).
      fold (@fmap list _ _ _ (@fst string V) d).
      rewrite IH. case_bool_decide as Hin.
      * by rewrite bool_decide_eq_true_2 by (by right).
      * rewrite bool_decide_eq_false_2; [done|].
        by intros [?|?]%elem_of_cons.
Qed.

Lemma dict_keys_set_NoDup {V : Type} (k : string) (v : V) (d : dict V) :
  NoDup (dict_keys d) → NoDup (dict_keys (dict_set k v d)).
Proof.
  intros Hd. rewrite dict_keys_set. case_bool_decide as Hin; [done|].
  apply NoDup_app. split; [done|]. split; [|apply NoDup_singleton].
  by intros x Hx ->%list_elem_of_singleton.
Qed.

Lemma dict_lookup_None {V : Type} (k : string) (d : dict V) :
  dict_lookup k d = None ↔ k ∉ dict_keys d.
Proof.
  unfold dict_keys. induction d as [|[k' v'] d IH]; cbn [dict_lookup].
  - split; [intros _; apply not_elem_of_nil|done].
  - rewrite fmap_cons, not_elem_of_cons. cbn [fst].
    destruct (decide (k' = k)) as [->|Hne].
    + split; [done|]. by intros [? _].
    + rewrite IH. split; [|by intros [_ ?]]. by split.
Qed.

Lemma dict_lookup_Some_in {V : Type} (k : string) (v : V) (d : dict V) :
  dict_lookup k d = Some v → (k, v) ∈ d.
Proof.
  induction d as [|[k' v'] d IH]; cbn [dict_lookup]; [done|].
  destruct (decide (k' = k)) as [->|Hne].
  - intros [= ->]. by left.
  - intros Hk. right. by apply IH.
Qed.

Lemma dict_in_lookup {V : Type} (k : string) (v : V) (d : dict V) :
  NoDup (dict_keys d) → (k, v) ∈ d → dict_lookup k d = Some v.
Proof.
  unfold dict_keys. induction d as [|[k' v'] d IH]; cbn [dict_lookup].
  - by intros _ ?%elem_of_nil.
  - rewrite fmap_cons. cbn [fst].
    intros [Hk' Hd]%NoDup_cons [[= -> ->]|Hin]%elem_of_cons.
    + by rewrite decide_True.
    + rewrite decide_False; [by apply IH|].
      intros ->. apply Hk'. apply list_elem_of_fmap. by exists (k, v).
Qed.


Lemma dict_lookup_del_ne {V : Type} (k k' : string) (d : dict V) :
  k ≠ k' → dict_lookup k' (dict_del k d) = dict_lookup k' d.
Proof.
  intros Hne. induction d as [|[k0 v0] d IH]; cbn [dict_del dict_lookup]; [done|].
  destruct (decide (k0 = k)) as [->|Hne0]; cbn [dict_lookup].
  - by rewrite decide_False.
  - destruct (decide (k0 = k')); [done|]. apply IH.
Qed.

(** Deleting a key keeps the other keys in their order. *)
Lemma dict_keys_del {V : Type} (k : string) (d : dict V) :
  NoDup (dict_keys d) →
  dict_keys (dict_del k d) = filter (λ k', k' ≠ k) (dict_keys d).
Proof.
  unfold dict_keys. induction d as [|[k' v'] d IH]; cbn [dict_del]; [done|].
  rewrite fmap_cons. cbn [fst]. intros [Hk' Hd]%NoDup_cons.
  rewrite filter_cons. destruct (decide (k' = k)) as [->|Hne].
  - rewrite decide_False by (by intros ?).
    clear IH. induction d as [|[k0 v0] d IH]; [done|].
    rewrite fmap_cons in *. cbn [fst] in *.
    apply not_elem_of_cons in Hk' as [Hk0 Hk'].
    apply NoDup_cons in Hd as [_ Hd].
    rewrite filter_cons, decide_True by done. f_equal. by apply IH.
  - rewrite decide_True by done. rewrite fmap_cons. cbn [fst]. f_equal.
    by apply IH.
Qed.

Lemma dict_lookup_del_eq {V : Type} (k : string) (d : dict V) :
  NoDup (dict_keys d) → dict_lookup k (dict_del k d) = None.
Proof.
  intros Hd. apply dict_lookup_None. rewrite dict_keys_del by done.
  rewrite list_elem_of_filter. by intros [? _].
Qed.

Lemma hosts_of_saved {G D : Type} (self : @InventoryDir G D) (hosts : dict Host) :
  hosts_writable self = true → side_files_load self →
  hosts_of (_save_hosts_inventory self hosts) = hosts.
Proof.
  intros Hw [Hg Hd]. unfold hosts_of, get_inventory, _save_hosts_inventory.
  rewrite Hw. simpl.
  destruct (groups_yaml self) as [|e|?]; [|by destruct (Hg e)|];
    (destruct (defaults_yaml self) as [|e|?]; [|by destruct (Hd e)|]); done.
Qed.

Lemma hosts_of_keys_NoDup_saved {G D : Type} (self : @InventoryDir G D) (hosts : dict Host) :
  hosts_writable self = true → side_files_load self →
  NoDup (dict_keys hosts) →
  NoDup (dict_keys (hosts_of (_save_hosts_inventory self hosts))).
Proof. intros Hw Hside Hnd. by rewrite hosts_of_saved. Qed.

(** X16.  After [add_device], with a hosts file that can be written and
    side files that load, the device is found with the entry that was
    given, every other device is found as before, the devices that were
    there keep their order, and a new device comes last; a device that was
    there is replaced, never listed twice.  The call returns [True]. *)
Theorem add_device_adds {G D : Type} (self : @InventoryDir G D) (device_name host_name : string)
    (device_groups : list string) (vendor device_type : string)
    (kwargs : dict scalar) :
  hosts_writable self = true → side_files_load self →
  let r := add_device self device_name host_name device_groups vendor
             device_type kwargs in
  r.1 = true
  ∧ dict_lookup device_name (hosts_of r.2)
    = Some (added_host host_name device_groups vendor device_type kwargs)
  ∧ (∀ other, other ≠ device_name →
       dict_lookup other (hosts_of r.2) = dict_lookup other (hosts_of self))
  ∧ dict_keys (hosts_of r.2)
    = (if bool_decide (device_name ∈ dict_keys (hosts_of self))
       then dict_keys (hosts_of self)
       else dict_keys (hosts_of self) ++ [device_name])
  ∧ (NoDup (dict_keys (hosts_of self)) → NoDup (dict_keys (hosts_of r.2))).
Proof.
  intros Hw Hside r. subst r. unfold add_device. cbn [fst snd].
  rewrite hosts_of_saved by done. fold (hosts_of self).
  fold (added_host host_name device_groups vendor device_type kwargs).
  split; [done|]. split; [apply dict_lookup_set_eq|].
  split; [intros other Hne; by apply dict_lookup_set_ne|].
  split; [apply dict_keys_set|apply dict_keys_set_NoDup].
Qed.

(** X17.  [remove_device] on a name that is not in the inventory returns
    [False] and changes nothing.  On a name that is there it returns
    [True] when the hosts file can be written, the groups and the defaults
    file load and the hosts hold no name twice; the device is then no
    longer found, every other device is found as before, and the remaining
    devices keep their order. *)
Theorem remove_device_removes {G D : Type} (self : @InventoryDir G D) (device_name : string) :
  let r := remove_device self device_name in
  (device_name ∉ dict_keys (hosts_of self) → r = (false, self))
  ∧ (device_name ∈ dict_keys (hosts_of self) →
     hosts_writable self = true → side_files_load self →
     NoDup (dict_keys (hosts_of self)) →
     r.1 = true
     ∧ dict_lookup device_name (hosts_of r.2) = None
     ∧ (∀ other, other ≠ device_name →
          dict_lookup other (hosts_of r.2) = dict_lookup other (hosts_of self))
     ∧ dict_keys (hosts_of r.2)
       = filter (λ k, k ≠ device_name) (dict_keys (hosts_of self))).
Proof.
  intros r. subst r. unfold remove_device. fold (hosts_of self). split.
  - intros Hout. by rewrite bool_decide_eq_false_2.
  - intros Hin Hw Hside Hnd. rewrite bool_decide_eq_true_2 by done.
    cbn [fst snd]. rewrite hosts_of_saved by done.
    split; [done|]. split; [by apply dict_lookup_del_eq|].
    split; [intros other Hne; by apply dict_lookup_del_ne|].
    by apply dict_keys_del.
Qed.





Lemma sample_side_files_load : side_files_load sample_dir.
Proof. split; intros e; discriminate. Qed.

Lemma add_device_adds_witness :
  let r := add_device sample_dir "fw-01" "192.168.1.20" ["firewalls"; "fortinet"]
             "fortinet" "fortios" [("site", SStr "datacenter-1")] in
  r.1 = true
  ∧ dict_lookup "fw-01" (hosts_of r.2)
    = Some (added_host "192.168.1.20" ["firewalls"; "fortinet"] "fortinet"
              "fortios" [("site", SStr "datacenter-1")])
  ∧ (∀ other, other ≠ "fw-01" →
       dict_lookup other (hosts_of r.2)
       = dict_lookup other (hosts_of sample_dir))
  ∧ dict_keys (hosts_of r.2)
    = (if bool_decide ("fw-01" ∈ dict_keys (hosts_of sample_dir))
       then dict_keys (hosts_of sample_dir)
       else dict_keys (hosts_of sample_dir) ++ ["fw-01"])
  ∧ (NoDup (dict_keys (hosts_of sample_dir)) → NoDup (dict_keys (hosts_of r.2))).
Proof.
  apply (add_device_adds sample_dir "fw-01" "192.168.1.20");
    [reflexivity | apply sample_side_files_load].
Defined.

Lemma remove_device_removes_witness :
  let r := remove_device sample_dir "rtr-01" in
  r.1 = true
  ∧ dict_lookup "rtr-01" (hosts_of r.2) = None
  ∧ (∀ other, other ≠ "rtr-01" →
       dict_lookup other (hosts_of r.2)
       = dict_lookup other (hosts_of sample_dir))
  ∧ dict_keys (hosts_of r.2)
    = filter (λ k, k ≠ "rtr-01") (dict_keys (hosts_of sample_dir)).
Proof.
  apply (proj2 (remove_device_removes sample_dir "rtr-01"));
    [ | reflexivity | apply sample_side_files_load | ].
  - apply (list_elem_of_lookup_2 _ 0). reflexivity.
  - apply (bool_decide_unpack _). vm_compute. exact I.
Defined.




(** ** inventory_manager.py: groups *)

Lemma devices_by_group_filter {G D : Type} (self : @InventoryDir G D)
    (group_name : string) :
  get_devices_by_group self group_name
  = (filter (λ host, group_name ∈ host_groups host.2) (hosts_of self)).*1.
Proof.
  unfold get_devices_by_group. fold (hosts_of self).
  enough (∀ acc,
            foldl (λ devices (host : string * Host),
                     if bool_decide (group_name ∈ host_groups host.2)
                     then devices ++ [host.1] else devices)
                  acc (hosts_of self)
            = acc ++ (filter (λ host, group_name ∈ host_groups host.2)
                        (hosts_of self)).*1) as Hacc by apply (Hacc []).
  induction (hosts_of self) as [|host hosts IH]; intros acc; cbn [foldl].
  - by rewrite app_nil_r.
  - rewrite IH.
    rewrite (filter_cons (λ h : string * Host, group_name ∈ host_groups h.2)).
    case_bool_decide as Hin.
    + rewrite decide_True by done. by rewrite fmap_cons, <- app_assoc.
    + by rewrite decide_False by done.
Qed.

Lemma groups_fold_elem (hosts : dict Host) (acc : gset string) (g : string) :
  g ∈ foldl (λ groups (host : string * Host),
               groups ∪ list_to_set (host_groups host.2)) acc hosts
  ↔ g ∈ acc ∨ ∃ host, host ∈ hosts ∧ g ∈ host_groups host.2.
Proof.
  revert acc. induction hosts as [|host hosts IH]; intros acc; cbn [foldl].
  - split; [by left|]. intros [?|(host & Hin & _)]; [done|].
    by apply elem_of_nil in Hin.
  - rewrite IH, elem_of_union, elem_of_list_to_set. split.
    + intros [[?|?]|(h & Hin & Hg)]; [by left| |].
      * right. exists host. split; [by left|done].
      * right. exists h. split; [by right|done].
    + intros [?|(h & [->|Hin]%elem_of_cons & Hg)]; [by left; left| |].
      * left. by right.
      * right. by exists h.
Qed.

Lemma devices_by_group_elem {G D : Type} (self : @InventoryDir G D)
    (group_name device_name : string) :
  device_name ∈ get_devices_by_group self group_name
  ↔ ∃ h, (device_name, h) ∈ hosts_of self ∧ group_name ∈ host_groups h.
Proof.
  rewrite devices_by_group_filter, list_elem_of_fmap. split.
  - intros ([name h] & -> & [Hg Hin]%list_elem_of_filter). by exists h.
  - intros (h & Hin & Hg). exists (device_name, h). split; [done|].
    by apply list_elem_of_filter.
Qed.

Lemma device_groups_elem {G D : Type} (self : @InventoryDir G D) (g : string) :
  g ∈ get_device_groups self
  ↔ ∃ name h, (name, h) ∈ hosts_of self ∧ g ∈ host_groups h.
Proof.
  unfold get_device_groups. fold (hosts_of self).
  rewrite merge_sort_Permutation, elem_of_elements, groups_fold_elem. split.
  - intros [Hin|([name h] & Hin & Hg)]; [by apply elem_of_empty in Hin|].
    by exists name, h.
  - intros (name & h & Hin & Hg). right. by exists (name, h).
Qed.

(** X21.  [get_device_groups] lists every group that some host names,
    and no other; each group once, in ascending order.  A group is listed
    exactly when [get_devices_by_group] finds a device for it. *)
Theorem device_groups_sorted_and_complete {G D : Type}
    (self : @InventoryDir G D) :
  let listed := get_device_groups self in
  Sorted String.le listed
  ∧ NoDup listed
  ∧ ∀ g, (g ∈ listed
          ↔ ∃ name h, (name, h) ∈ hosts_of self ∧ g ∈ host_groups h)
         ∧ (g ∈ listed ↔ get_devices_by_group self g ≠ []).
Proof.
  intros listed. subst listed.
  split; [apply Sorted_merge_sort, _|].
  split; [unfold get_device_groups; rewrite merge_sort_Permutation;
          apply NoDup_elements|].
  intros g. split; [apply device_groups_elem|].
  rewrite device_groups_elem. split.
  - intros (name & h & Hin & Hg) Hnil.
    assert (name ∈ get_devices_by_group self g) as Hname
      by (apply devices_by_group_elem; by exists h).
    rewrite Hnil in Hname. by apply elem_of_nil in Hname.
  - intros Hne. destruct (get_devices_by_group self g) as [|name l] eqn:Hl;
      [done|].
    assert (name ∈ get_devices_by_group self g) as Hname
      by (rewrite Hl; by left).
    apply devices_by_group_elem in Hname as (h & Hin & Hg). by exists name, h.
Qed.

(** X22.  [get_devices_by_group] returns the devices whose groups list
    holds the group, in the order of the inventory; a host written without
    a groups key is in no group. *)
Theorem devices_by_group_in_order {G D : Type} (self : @InventoryDir G D)
    (group_name : string) :
  let found := get_devices_by_group self group_name in
  sublist found (dict_keys (hosts_of self))
  ∧ (∀ name, name ∈ found
             ↔ ∃ h, (name, h) ∈ hosts_of self ∧ group_name ∈ host_groups h)
  ∧ (∀ name h, dict_lookup name (hosts_of self) = Some h →
               groups h = None → NoDup (dict_keys (hosts_of self)) →
               name ∉ found).
Proof.
  intros found. subst found. split; [|split].
  - rewrite devices_by_group_filter. unfold dict_keys.
    apply fmap_sublist, sublist_filter.
  - intros name. apply devices_by_group_elem.
  - intros name h Hlook Hnone Hnd (h' & Hin & Hg)%devices_by_group_elem.
    apply (dict_in_lookup _ _ _ Hnd) in Hin. rewrite Hlook in Hin.
    injection Hin as <-. unfold host_groups in Hg. rewrite Hnone in Hg.
    by apply elem_of_nil in Hg.
Qed.

(** X23.  When the hosts file can be written, the groups and the defaults
    file load and the hosts hold no name twice, a device that was added is
    found under exactly the groups it was added with, and each of them is
    listed by [get_device_groups]. *)
Theorem added_device_in_its_groups {G D : Type} (self : @InventoryDir G D)
    (device_name host_name : string) (device_groups : list string)
    (vendor device_type : string) (kwargs : dict scalar) :
  hosts_writable self = true → side_files_load self →
  NoDup (dict_keys (hosts_of self)) →
  let self' := (add_device self device_name host_name device_groups vendor
                  device_type kwargs).2 in
  ∀ g, (device_name ∈ get_devices_by_group self' g ↔ g ∈ device_groups)
       ∧ (g ∈ device_groups → g ∈ get_device_groups self').
Proof.
  intros Hw Hside Hnd self' g.
  assert (hosts_of self'
          = dict_set device_name
              (added_host host_name device_groups vendor device_type kwargs)
              (hosts_of self)) as Hhosts
    by (subst self'; unfold add_device; cbn [snd]; by rewrite hosts_of_saved).
  assert (device_name ∈ get_devices_by_group self' g ↔ g ∈ device_groups)
    as Hiff.
  { rewrite devices_by_group_elem, Hhosts. split.
    - intros (h & Hin & Hg).
      apply dict_in_lookup in Hin; [|by apply dict_keys_set_NoDup].
      rewrite dict_lookup_set_eq in Hin. by injection Hin as <-.
    - intros Hg.
      exists (added_host host_name device_groups vendor device_type kwargs).
      split; [|exact Hg]. apply dict_lookup_Some_in, dict_lookup_set_eq. }
  split; [done|]. intros Hg. apply device_groups_elem.
  apply Hiff, devices_by_group_elem in Hg as (h & Hin & Hg).
  by exists device_name, h.
Qed.

Lemma added_device_in_its_groups_witness :
  let self' := (add_device sample_dir "fw-01" "192.168.1.20"
                  ["firewalls"; "fortinet"] "fortinet" "fortios" []).2 in
  ("fw-01" ∈ get_devices_by_group self' "firewalls"
   ↔ "firewalls" ∈ ["firewalls"; "fortinet"])
  ∧ ("firewalls" ∈ ["firewalls"; "fortinet"]
     → "firewalls" ∈ get_device_groups self').
Proof.
  apply (added_device_in_its_groups sample_dir "fw-01" "192.168.1.20"
           ["firewalls"; "fortinet"] "fortinet" "fortios" []);
    [reflexivity | apply sample_side_files_load | ].
  apply (bool_decide_unpack _). vm_compute. exact I.
Defined.

(** The groups of the sample inventory, and the devices of one of them. *)
Example sample_groups_evaluated :
  get_device_groups sample_dir = ["cisco"; "routers"; "switches"]
  ∧ get_devices_by_group sample_dir "cisco" = ["rtr-01"; "sw-01"]
  ∧ get_devices_by_group sample_dir "Cisco" = [].
Proof. evaluate. Qed.

(** ** inventory_manager.py: the synchronisation *)

Lemma lower_char_idempotent (c : ascii) : lower_char (lower_char c) = lower_char c.
Proof.
  destruct c as [[] [] [] [] [] [] [] []]; reflexivity.
Qed.

Lemma lower_idempotent (s : string) : lower (lower s) = lower s.
Proof.
  induction s as [|c s IH]; [done|]. cbn [lower].
  by rewrite lower_char_idempotent, IH.
Qed.

Lemma get_lowered_name_lower (obj : field (field string)) (m : string) :
  get_lowered_name obj = Ok m → lower m = m.
Proof.
  destruct obj as [| |[| |s]]; intros [= <-]; try done.
  apply lower_idempotent.
Qed.

(** A device that is converted has a name, and its entry is as the sync
    methods write it. *)
Lemma convert_device_synced (src : source) (d : remote_device)
    (name : string) (h : Host) :
  convert_device src d = Ok (Some (name, h)) →
  r_name d = Val name ∧ name ≠ "" ∧ synced_host h.
Proof.
  unfold convert_device.
  destruct (r_name d) as [| |[|c n]]; [done..|].
  destruct (ip_address_of _) as [ip|]; [|done]. cbn [mbind pyresult_bind].
  destruct (match r_device_type d with
            | Absent => Ok ""
            | Null => Raise "'NoneType' object has no attribute 'get'"
            | Val device_type => get_lowered_name (r_manufacturer device_type)
            end) as [m|] eqn:Hm; [|done].
  destruct (get_lowered_name (r_device_role d)) as [role|] eqn:Hrole; [|done].
  destruct (get_nested _ _ (r_site d)); [|done].
  destruct (get_nested _ _ (r_status d)); [|done].
  intros [= <- <-]. split; [done|]. split; [done|].
  assert (lower m = m) as Hlow.
  { destruct (r_device_type d) as [| |device_type];
      [by injection Hm as <- | done | by apply get_lowered_name_lower in Hm]. }
  exists m. split; [done|]. split; [done|]. split; [done|].
  cbn [groups]. destruct role as [|cr role]; [by left|].
  destruct m as [|cm m]; [by left|]. right.
  exists (String cr role). repeat split; try done.
  by apply get_lowered_name_lower in Hrole.
Qed.

Lemma elem_of_dict_set {V : Type} (k k' : string) (v v' : V) (d : dict V) :
  (k', v') ∈ dict_set k v d → (k', v') = (k, v) ∨ (k', v') ∈ d.
Proof.
  induction d as [|[k0 v0] d IH]; cbn [dict_set].
  - intros ->%list_elem_of_singleton. by left.
  - destruct (decide (k0 = k)) as [->|Hne].
    + intros [->|Hin]%elem_of_cons; [by left|]. right. by right.
    + intros [->|Hin]%elem_of_cons; [right; by left|].
      destruct (IH Hin) as [?|?]; [by left|]. right. by right.
Qed.

(** The loop keeps what holds of every entry written so far, and keeps
    the names apart. *)
Lemma convert_devices_invariant (src : source) (devices : list remote_device)
    (P : string → Host → Prop) (hosts hosts' : dict Host) :
  (∀ d name h, d ∈ devices → convert_device src d = Ok (Some (name, h)) →
               P name h) →
  convert_devices src devices hosts = Ok hosts' →
  (∀ name h, (name, h) ∈ hosts → P name h) →
  NoDup (dict_keys hosts) →
  (∀ name h, (name, h) ∈ hosts' → P name h) ∧ NoDup (dict_keys hosts').
Proof.
  revert hosts. induction devices as [|d devices IH]; intros hosts HP;
    cbn [convert_devices].
  - by intros [= <-].
  - destruct (convert_device src d) as [entry|] eqn:Hd; [|done].
    cbn [mbind pyresult_bind]. intros Hrest Hhosts Hnd.
    apply (IH _ (λ d' name h Hin, HP d' name h (list_elem_of_further _ _ _ Hin))
             Hrest).
    + destruct entry as [[name0 h0]|]; [|done].
      intros name h [[= -> ->]|Hin]%elem_of_dict_set; [|by apply Hhosts].
      apply (HP d); [by left|done].
    + destruct entry as [[name0 h0]|]; [|done]. by apply dict_keys_set_NoDup.
Qed.

(** One device that cannot be converted stops the loop. *)
Lemma convert_devices_raise (src : source) (devices : list remote_device)
    (d : remote_device) (e : string) (hosts : dict Host) :
  d ∈ devices → convert_device src d = Raise e →
  ∃ e', convert_devices src devices hosts = Raise e'.
Proof.
  revert hosts. induction devices as [|d0 devices IH]; intros hosts.
  - by intros ?%elem_of_nil.
  - intros [->|Hin]%elem_of_cons Hd; cbn [convert_devices].
    + rewrite Hd. by eexists.
    + destruct (convert_device src d0) as [entry|e0]; [|by eexists].
      cbn [mbind pyresult_bind]. by apply IH.
Qed.

(** X24.  A synchronisation that fails returns [False] and leaves the
    inventory as it was.  It fails when the request fails, when the answer
    has [null] for its results, and when one device of the listing has a
    name and [null] for its device type, however many other devices there
    are. *)
Theorem sync_failure_keeps_inventory {G D : Type} (src : source)
    (self : @InventoryDir G D)
    (response : pyresult (field (list remote_device))) :
  (∀ e, response = Raise e → sync_from src self response = (false, self))
  ∧ (response = Ok Null → sync_from src self response = (false, self))
  ∧ (∀ devices d c name,
       response = Ok (Val devices) → d ∈ devices →
       r_name d = Val (String c name) → r_device_type d = Null →
       sync_from src self response = (false, self)).
Proof.
  unfold sync_from. split; [by intros e ->|]. split; [by intros ->|].
  intros devices d c name -> Hin Hname Htype. cbn [mbind pyresult_bind].
  assert (∃ e, convert_device src d = Raise e) as [e He].
  { unfold convert_device. rewrite Hname, Htype.
    destruct (ip_address_of _); by eexists. }
  destruct (convert_devices_raise src devices d e [] Hin He) as [e' ->].
  done.
Qed.

Lemma sync_failure_witness :
  sync_from NetBox sample_dir (Ok (Val (sample_listing ++ [broken_device])))
  = (false, sample_dir).
Proof.
  apply (proj2 (proj2 (sync_failure_keeps_inventory NetBox sample_dir
                         (Ok (Val (sample_listing ++ [broken_device])))))
           (sample_listing ++ [broken_device]) broken_device "e"%char "dge-2");
    [reflexivity | | reflexivity | reflexivity].
  apply (list_elem_of_lookup_2 _ 3). reflexivity.
Defined.

(** X25.  When the hosts file can be written, a synchronisation that
    returns [True] has replaced the hosts file by the converted listing,
    whatever the file held.  Every host that is
    written has a name that is not empty, taken from a device of the
    listing; no name is written twice; the vendor is in lower case, the
    device type is the driver the table gives for that vendor, and the
    groups are either none or the role and the vendor.  The groups and the
    defaults file are not touched. *)
Theorem sync_success_writes_listing {G D : Type} (src : source)
    (self self' : @InventoryDir G D)
    (response : pyresult (field (list remote_device))) :
  sync_from src self response = (true, self') →
  hosts_writable self = true →
  ∃ devices hosts,
    (response = Ok (Val devices) ∨ (response = Ok Absent ∧ devices = []))
    ∧ convert_devices src devices [] = Ok hosts
    ∧ hosts_yaml self' = Doc hosts
    ∧ groups_yaml self' = groups_yaml self
    ∧ defaults_yaml self' = defaults_yaml self
    ∧ NoDup (dict_keys hosts)
    ∧ ∀ name h, (name, h) ∈ hosts →
        name ≠ "" ∧ synced_host h
        ∧ ∃ d, d ∈ devices ∧ r_name d = Val name.
Proof.
  unfold sync_from. intros Hsync Hw.
  destruct response as [[| |devices]|e]; cbn [mbind pyresult_bind] in Hsync;
    [exists [] | done | exists devices | done].
  - injection Hsync as <-. exists []. unfold _save_hosts_inventory. rewrite Hw.
    split; [by right|]. do 4 (split; [done|]).
    split; [apply NoDup_nil_2|]. by intros name h ?%elem_of_nil.
  - destruct (convert_devices src devices []) as [hosts|] eqn:Hconv; [|done].
    injection Hsync as <-. exists hosts. unfold _save_hosts_inventory.
    rewrite Hw. cbn.
    destruct (convert_devices_invariant src devices
                (λ name h, name ≠ "" ∧ synced_host h
                           ∧ ∃ d, d ∈ devices ∧ r_name d = Val name)
                [] hosts) as [HP Hnd]; try done.
    + intros d name h Hin Hd.
      destruct (convert_device_synced src d name h Hd) as (Hname & Hne & Hs).
      repeat split; try done. by exists d.
    + by intros name h ?%elem_of_nil.
    + apply NoDup_nil_2.
    + split; [by left|]. by do 4 (split; [done|]).
Qed.

Lemma sync_success_witness :
  ∃ devices hosts,
    (Ok (Val sample_listing) = Ok (Val devices)
     ∨ (Ok (Val sample_listing) = Ok Absent ∧ devices = []))
    ∧ convert_devices NetBox devices [] = Ok hosts
    ∧ hosts_yaml (sync_from NetBox sample_dir (Ok (Val sample_listing))).2
      = Doc hosts
    ∧ groups_yaml (sync_from NetBox sample_dir (Ok (Val sample_listing))).2
      = groups_yaml sample_dir
    ∧ defaults_yaml (sync_from NetBox sample_dir (Ok (Val sample_listing))).2
      = defaults_yaml sample_dir
    ∧ NoDup (dict_keys hosts)
    ∧ ∀ name h, (name, h) ∈ hosts →
        name ≠ "" ∧ synced_host h
        ∧ ∃ d, d ∈ devices ∧ r_name d = Val name.
Proof.
  apply (sync_success_writes_listing NetBox sample_dir _
           (Ok (Val sample_listing))); reflexivity.
Defined.

(** The sample listing as it is written: the device without a name is
    left out, the address loses its prefix length, the device without an
    address is known by its display name. *)
Example sync_evaluated :
  (λ entry : string * Host,
     (entry.1, hostname entry.2, groups entry.2,
      dict_lookup "device_type" (data entry.2)))
  <$> hosts_of (sync_from NetBox sample_dir (Ok (Val sample_listing))).2
  = [ ("edge-1", SStr "10.0.0.1", Some ["router"; "juniper networks"],
       Some (SStr "junos"));
      ("core-1", SStr "display name", Some ["router"; "cisco systems"],
       Some (SStr "ios")) ].
Proof. evaluate. Qed.

Lemma before_slash_no_slash (s : string) : str_in "/" (before_slash s) = false.
Proof.
  induction s as [|c s IH]; [done|]. cbn [before_slash].
  case_bool_decide as Hc; [done|]. cbn [str_in startswith].
  rewrite IH. rewrite bool_decide_eq_false_2 by (by intros ?). done.
Qed.

Lemma before_slash_prefix (s : string) : startswith (before_slash s) s = true.
Proof.
  induction s as [|c s IH]; [done|]. cbn [before_slash].
  case_bool_decide as Hc; [done|]. cbn [startswith].
  by rewrite IH, bool_decide_eq_true_2.
Qed.

(** X26.  The host name written for a device is its primary address up
    to the first slash, which holds no slash and is the beginning of the
    address; when the device has no primary IP, no address in it, or an
    address that begins with a slash, the host name is the display name of
    the device. *)
Theorem synced_hostname (src : source) (d : remote_device)
    (name : string) (h : Host) :
  convert_device src d = Ok (Some (name, h)) →
  (∀ address,
     primary_ip_of src d = Val (Val address) → before_slash address ≠ "" →
     hostname h = SStr (before_slash address)
     ∧ str_in "/" (before_slash address) = false
     ∧ startswith (before_slash address) address = true)
  ∧ (primary_ip_of src d = Absent ∨ primary_ip_of src d = Null
     ∨ primary_ip_of src d = Val Absent
     ∨ (∃ address, primary_ip_of src d = Val (Val address)
                   ∧ before_slash address = "") →
     hostname h = get_scalar (r_display d)).
Proof.
  unfold convert_device. fold (primary_ip_of src d).
  destruct (r_name d) as [| |[|c n]]; [done..|].
  destruct (ip_address_of (primary_ip_of src d)) as [ip|] eqn:Hip; [|done].
  cbn [mbind pyresult_bind].
  destruct (match r_device_type d with
            | Absent => Ok ""
            | Null => Raise "'NoneType' object has no attribute 'get'"
            | Val device_type => get_lowered_name (r_manufacturer device_type)
            end) as [m|]; [|done].
  destruct (get_lowered_name (r_device_role d)) as [role|]; [|done].
  destruct (get_nested _ _ (r_site d)); [|done].
  destruct (get_nested _ _ (r_status d)); [|done].
  intros [= <- <-]. cbn [hostname]. split.
  - intros address Haddr Hne. rewrite Haddr in Hip. injection Hip as <-.
    split; [by destruct (before_slash address)|].
    split; [apply before_slash_no_slash|apply before_slash_prefix].
  - intros [Hnone|[Hnone|[Hnone|(address & Hnone & Hempty)]]];
      rewrite Hnone in Hip; injection Hip as <-; by rewrite ?Hempty.
Qed.

Lemma synced_hostname_witness :
  hostname
    {| hostname := SStr "10.0.0.1";
       groups := Some ["router"; "juniper networks"];
       data := [ ("vendor", SStr "juniper networks");
                 ("device_type", SStr "junos");
                 ("site", SStr ""); ("status", SStr "");
                 ("serial", SStr ""); ("asset_tag", SNull);
                 ("netbox_id", SNum 7); ("netbox_url", SStr "") ] |}
  = SStr (before_slash "10.0.0.1/24")
  ∧ str_in "/" (before_slash "10.0.0.1/24") = false
  ∧ startswith (before_slash "10.0.0.1/24") "10.0.0.1/24" = true.
Proof.
  apply (proj1 (synced_hostname NetBox
                  (remote (Val "edge-1") (Val "10.0.0.1/24")
                     (Val "Juniper Networks"))
                  "edge-1" _ eq_refl) "10.0.0.1/24");
    [reflexivity | discriminate].
Defined.
